(** * Image Meta Cleaner: a shallow embedding of [src/intents/design_editor/app.tsx]

    The React component [App] keeps seven pieces of state and five handlers.
    Every handler is translated as a function on that state; the
    asynchronous ones are split at their suspension point into the part that
    runs on invocation and the continuation that runs when the awaited
    facility settles.  The browser, the [exifr] parser and the host editor are
    gathered in the class [Platform]: the component only calls them. *)

From Stdlib Require Import QArith_base.
From stdpp Require Import base option strings list gmap.

Local Open Scope string_scope.

(** ** JavaScript values used by the component *)

Module JS.

(** A JavaScript [number]: a finite value or NaN. *)
Inductive number :=
| NaN
| Finite (q : Q).

(** Truthiness of a number: [0] and [NaN] are falsy. *)
Definition number_truthy (x : number) : bool :=
  match x with
  | NaN => false
  | Finite q => negb (Qnum q =? 0)%Z
  end.

(** Truthiness of a string: only the empty string is falsy. *)
Definition string_truthy (s : string) : bool :=
  negb (String.eqb s "").

(** Truthiness of an optional value ([undefined]/[null] are falsy). *)
Definition truthy {A} (t : A -> bool) (v : option A) : bool :=
  match v with
  | None => false
  | Some a => t a
  end.

(** Objects are always truthy. *)
Definition object_truthy {A} (v : option A) : bool := truthy (fun _ => true) v.

(** [a || b] on optional values. *)
Definition or {A} (t : A -> bool) (a b : option A) : option A :=
  if truthy t a then a else b.

(** A [Date] object, by its time value. *)
Record Date := { getTime : Z }.

(** What a [throw] or a rejected promise carries. *)
Inductive thrown :=
| Error (message : string)
| DOMException
| LibraryFault.

(** The outcome of a block of code: normal completion or a throw. *)
Inductive completion (A : Type) :=
| Normal (a : A)
| Throw (e : thrown).
Arguments Normal {A} a.
Arguments Throw {A} e.

#[export] Instance completion_ret : MRet completion := fun A a => Normal a.
#[export] Instance completion_bind : MBind completion := fun A B f c =>
  match c with
  | Normal a => f a
  | Throw e => Throw e
  end.

(** [try { body } catch { handler }] where the handler ignores the error. *)
Definition try_catch {A B} (body : completion A) (ok : A -> B) (handler : B) : B :=
  match body with
  | Normal a => ok a
  | Throw _ => handler
  end.

End JS.

Import JS.

(** ** The [exifr] module as declared in [declarations.d.ts] *)

Module Exifr.

Record ParseOptions := {
  gps : bool; exif : bool; iptc : bool; xmp : bool; icc : bool; tiff : bool
}.

(** A value of a tag outside the named ones ([unknown] in the declaration). *)
Inductive TagValue :=
| TagString (s : string)
| TagNumber (n : number)
| TagNumberPair (a b : number)
| TagBytes (bs : list Byte.byte).

Inductive DateOrString :=
| IsDate (d : Date)
| IsString (s : string).

(** [interface ExifData]: every named tag is optional; the index signature
    admits any further tag. *)
Record ExifData := {
  latitude : option number;
  longitude : option number;
  DateTime : option DateOrString;
  DateTimeOriginal : option DateOrString;
  Make : option string;
  Model : option string;
  Software : option string;
  ImageWidth : option number;
  ImageHeight : option number;
  ExifImageWidth : option number;
  ExifImageHeight : option number;
  Orientation : option number;
  Artist : option string;
  Copyright : option string;
  others : gmap string TagValue
}.

(** The tag set with no tag at all: the object [{}]. *)
Definition no_tags : ExifData :=
  {| latitude := None; longitude := None; DateTime := None;
     DateTimeOriginal := None; Make := None; Model := None; Software := None;
     ImageWidth := None; ImageHeight := None; ExifImageWidth := None;
     ExifImageHeight := None; Orientation := None; Artist := None;
     Copyright := None; others := ∅ |}.

(** How the promise returned by [parse] settles:
    it rejects, or resolves to [ExifData | null]. *)
Inductive ParseResult :=
| Rejects (e : thrown)
| Resolves (d : option ExifData).

End Exifr.

(** ** DOM objects the component touches *)

Module Dom.

Record File := {
  name : string;
  type : string;
  size : N;
  bytes : list Byte.byte
}.

Record Blob := {
  blob_type : string;
  blob_bytes : list Byte.byte
}.

Record RGBA := { red : N; green : N; blue : N; alpha : N }.

(** A decoded pixel surface, row by row. *)
Definition Raster := list (list RGBA).

(** A loaded [HTMLImageElement]. *)
Record Image := {
  naturalWidth : N;
  naturalHeight : N;
  pixels : Raster
}.

Record Canvas := {
  width : N;
  height : N;
  surface : Raster
}.

(** [document.createElement("canvas")] followed by the two assignments of
    [width] and [height]: a blank surface of that size. *)
Definition createCanvas (w h : N) : Canvas :=
  {| width := w; height := h; surface := [] |}.

(** [ctx.drawImage(img, 0, 0)] on a canvas that has the image's natural
    size: the surface now holds the image's pixels. *)
Definition drawImageAtOrigin (c : Canvas) (img : Image) : Canvas :=
  {| width := width c; height := height c; surface := pixels img |}.

(** How a [FileReader.readAsDataURL] ends: [onerror] fires, or [onloadend]
    sees a string result, or a result that is not a string. *)
Inductive ReadResult :=
| ReadFails
| ReadString (s : string)
| ReadOther.

End Dom.

(** ** The component's own types *)

(** A property of a JavaScript object: the key may be missing, or be an own
    key whose value may still be [undefined]. *)
Inductive prop (T : Type) :=
| Missing
| Own (v : option T).
Arguments Missing {T}.
Arguments Own {T} v.

(** Reading a property: a missing key reads as [undefined]. *)
Definition get {T} (p : prop T) : option T :=
  match p with
  | Missing => None
  | Own v => v
  end.

Definition is_own {T} (p : prop T) : bool :=
  match p with
  | Missing => false
  | Own _ => true
  end.

(** [interface MetadataInfo] *)
Record MetadataInfo := {
  latitude : prop number;
  longitude : prop number;
  dateTime : prop string;
  dateTimeOriginal : prop string;
  make : prop string;
  model : prop string;
  software : prop string;
  imageWidth : prop number;
  imageHeight : prop number;
  orientation : prop number;
  artist : prop string;
  copyright : prop string;
  raw : prop Exifr.ExifData
}.

(** The object literal [{}]. *)
Definition emptyObject : MetadataInfo :=
  {| latitude := Missing; longitude := Missing; dateTime := Missing;
     dateTimeOriginal := Missing; make := Missing; model := Missing;
     software := Missing; imageWidth := Missing; imageHeight := Missing;
     orientation := Missing; artist := Missing; copyright := Missing;
     raw := Missing |}.

(** [Object.keys(metadata).length]: the number of own keys. *)
Definition keysLength (m : MetadataInfo) : nat :=
  Nat.b2n (is_own (latitude m)) + Nat.b2n (is_own (longitude m)) +
  Nat.b2n (is_own (dateTime m)) + Nat.b2n (is_own (dateTimeOriginal m)) +
  Nat.b2n (is_own (make m)) + Nat.b2n (is_own (model m)) +
  Nat.b2n (is_own (software m)) + Nat.b2n (is_own (imageWidth m)) +
  Nat.b2n (is_own (imageHeight m)) + Nat.b2n (is_own (orientation m)) +
  Nat.b2n (is_own (artist m)) + Nat.b2n (is_own (copyright m)) +
  Nat.b2n (is_own (raw m)).

(** A field is populated when reading it does not give [undefined]. *)
Definition populated {T} (p : prop T) : Prop := is_Some (get p).

Inductive ProcessingState := idle | reading | cleaning | done.

#[export] Instance ProcessingState_eq_dec : EqDecision ProcessingState.
Proof. solve_decision. Defined.

Record Size := { size_width : N; size_height : N }.

(** The seven [useState] cells of [App]. *)
Record AppState := {
  selectedFile : option Dom.File;
  imagePreview : option string;
  metadata : option MetadataInfo;
  processingState : ProcessingState;
  error : option string;
  cleanedImageUrl : option string;
  cleanedImageSize : option Size
}.

Definition initialState : AppState :=
  {| selectedFile := None; imagePreview := None; metadata := None;
     processingState := idle; error := None; cleanedImageUrl := None;
     cleanedImageSize := None |}.

(** ** The host editor ([@canva/design], [@canva/asset], [@canva/app-hooks]) *)

Module Host.

Inductive AddElementFn := addElementAtPoint | addElementAtCursor.
Inductive StartDragFn := startDragToPoint | startDragToCursor.

(** What [isSupported] can be asked about. *)
Inductive Feature :=
| AddElement (fn : AddElementFn)
| StartDrag (fn : StartDragFn).

Record UploadRequest := {
  upload_type : string;
  mimeType : string;
  url : string;
  thumbnailUrl : string;
  aiDisclosure : string;
  upload_width : N;
  upload_height : N
}.

Record AssetRef := { ref_id : N }.

Record AltText := { text : string; decorative : bool }.

Record ImageElement := {
  element_type : string;
  ref : AssetRef;
  altText : AltText
}.

(** [ImageDragConfig]; [resolveImageRef] is the closure [uploadCleanedImage],
    kept as the upload it will request when the host calls it. *)
Record ImageDragConfig := {
  drag_type : string;
  resolveImageRef : UploadRequest;
  previewUrl : string;
  previewSize : Size;
  fullSize : Size
}.

(** A call made into the host. *)
Inductive Call :=
| Upload (req : UploadRequest)
| Add (fn : AddElementFn) (el : ImageElement)
| Drag (fn : StartDragFn) (cfg : ImageDragConfig).

End Host.

(** ** Everything the component calls but does not define *)

Class Platform := {
  (** [intl.formatMessage], by the [defaultMessage] it is given *)
  formatMessage : string -> string;
  (** [Date.prototype.toString] *)
  Date_toString : Date -> string;
  (** [Number.prototype.toFixed] and the conversion of a number in a template *)
  Number_toFixed : number -> N -> string;
  Number_toString : number -> string;
  (** [URL.createObjectURL] *)
  createObjectURL : Dom.File -> string;
  (** [exifr.parse] *)
  exifr_parse : Dom.File -> Exifr.ParseOptions -> Exifr.ParseResult;
  (** [img.src = URL.createObjectURL(file)]: [onload] with the decoded image,
      or [onerror] *)
  image_load : Dom.File -> option Dom.Image;
  (** [canvas.getContext("2d")]: a context, or [null] *)
  getContext2d : Dom.Canvas -> bool;
  (** [canvas.toBlob(callback, type, quality)]: the blob handed to the
      callback, or [null] *)
  toBlob : Dom.Canvas -> string -> Q -> option Dom.Blob;
  (** [FileReader.readAsDataURL] *)
  readAsDataURL : Dom.Blob -> Dom.ReadResult;
  (** [useFeatureSupport()] *)
  isSupported : Host.Feature -> bool;
  (** [upload] of [@canva/asset] *)
  upload : Host.UploadRequest -> completion Host.AssetRef;
  (** [addElementAtPoint] / [addElementAtCursor] *)
  addElement : Host.AddElementFn -> Host.ImageElement -> completion unit
}.

(** ** State setters *)

Notation "s |> f" := (f s) (at level 45, left associativity, only parsing).

Definition setSelectedFile (v : option Dom.File) (s : AppState) : AppState :=
  {| selectedFile := v; imagePreview := imagePreview s; metadata := metadata s;
     processingState := processingState s; error := error s;
     cleanedImageUrl := cleanedImageUrl s; cleanedImageSize := cleanedImageSize s |}.

Definition setImagePreview (v : option string) (s : AppState) : AppState :=
  {| selectedFile := selectedFile s; imagePreview := v; metadata := metadata s;
     processingState := processingState s; error := error s;
     cleanedImageUrl := cleanedImageUrl s; cleanedImageSize := cleanedImageSize s |}.

Definition setMetadata (v : option MetadataInfo) (s : AppState) : AppState :=
  {| selectedFile := selectedFile s; imagePreview := imagePreview s; metadata := v;
     processingState := processingState s; error := error s;
     cleanedImageUrl := cleanedImageUrl s; cleanedImageSize := cleanedImageSize s |}.

Definition setProcessingState (v : ProcessingState) (s : AppState) : AppState :=
  {| selectedFile := selectedFile s; imagePreview := imagePreview s;
     metadata := metadata s; processingState := v; error := error s;
     cleanedImageUrl := cleanedImageUrl s; cleanedImageSize := cleanedImageSize s |}.

Definition setError (v : option string) (s : AppState) : AppState :=
  {| selectedFile := selectedFile s; imagePreview := imagePreview s;
     metadata := metadata s; processingState := processingState s; error := v;
     cleanedImageUrl := cleanedImageUrl s; cleanedImageSize := cleanedImageSize s |}.

Definition setCleanedImageUrl (v : option string) (s : AppState) : AppState :=
  {| selectedFile := selectedFile s; imagePreview := imagePreview s;
     metadata := metadata s; processingState := processingState s;
     error := error s; cleanedImageUrl := v; cleanedImageSize := cleanedImageSize s |}.

Definition setCleanedImageSize (v : option Size) (s : AppState) : AppState :=
  {| selectedFile := selectedFile s; imagePreview := imagePreview s;
     metadata := metadata s; processingState := processingState s;
     error := error s; cleanedImageUrl := cleanedImageUrl s; cleanedImageSize := v |}.

(** ** The privacy-risk flag *)

(** [x !== undefined] *)
Definition defined {T} (p : prop T) : bool :=
  match get p with
  | None => false
  | Some _ => true
  end.

(** The parenthesised disjunction of [hasPrivacyRisks]. *)
Definition riskFieldDefined (m : MetadataInfo) : bool :=
  defined (latitude m) || defined (longitude m) || defined (make m) ||
  defined (model m) || defined (artist m) || defined (dateTimeOriginal m).

(** [metadata && (...)]: [null] while there is no record, a boolean otherwise. *)
Definition hasPrivacyRisks (metadata : option MetadataInfo) : option bool :=
  match metadata with
  | None => None
  | Some m => Some (riskFieldDefined m)
  end.

(** ** Projection of the parsed tags, the extract step *)

Definition parseOptions : Exifr.ParseOptions :=
  {| Exifr.gps := true; Exifr.exif := true; Exifr.iptc := true;
     Exifr.xmp := true; Exifr.icc := false; Exifr.tiff := true |}.

Definition awaitParse (r : Exifr.ParseResult) : completion (option Exifr.ExifData) :=
  match r with
  | Exifr.Rejects e => Throw e
  | Exifr.Resolves d => Normal d
  end.

Section Extract.
Context `{Platform}.

(** [v?.toString()] on a [Date | string]. *)
Definition toString (v : Exifr.DateOrString) : string :=
  match v with
  | Exifr.IsDate d => Date_toString d
  | Exifr.IsString s => s
  end.

(** The object literal [parsedMetadata]: all thirteen keys are own keys. *)
Definition parsedMetadata (exifData : Exifr.ExifData) : MetadataInfo :=
  {| latitude := Own (Exifr.latitude exifData);
     longitude := Own (Exifr.longitude exifData);
     dateTime := Own (toString <$> Exifr.DateTime exifData);
     dateTimeOriginal := Own (toString <$> Exifr.DateTimeOriginal exifData);
     make := Own (Exifr.Make exifData);
     model := Own (Exifr.Model exifData);
     software := Own (Exifr.Software exifData);
     imageWidth :=
       Own (JS.or number_truthy (Exifr.ImageWidth exifData)
              (Exifr.ExifImageWidth exifData));
     imageHeight :=
       Own (JS.or number_truthy (Exifr.ImageHeight exifData)
              (Exifr.ExifImageHeight exifData));
     orientation := Own (Exifr.Orientation exifData);
     artist := Own (Exifr.Artist exifData);
     copyright := Own (Exifr.Copyright exifData);
     raw := Own (Some exifData) |}.

(** The body of the [try] block of [handleFileSelect], up to the record it
    hands to [setMetadata]. *)
Definition extractAttempt (file : Dom.File) : completion MetadataInfo :=
  exifData ← awaitParse (exifr_parse file parseOptions);
  match exifData with
  | Some d => mret (parsedMetadata d)
  | None => mret emptyObject
  end.

(** [try { ... } catch { setMetadata({}) }]: the record that reaches
    [setMetadata]. *)
Definition extract (file : Dom.File) : MetadataInfo :=
  try_catch (extractAttempt file) (fun m => m) emptyObject.

(** [handleFileSelect], from the call to the [await]. *)
Definition handleFileSelect_begin (files : list Dom.File) (s : AppState)
  : AppState * option Dom.File :=
  match head files with
  | None => (s, None)
  | Some file =>
      (s |> setError None
         |> setCleanedImageUrl None
         |> setMetadata None
         |> setSelectedFile (Some file)
         |> setProcessingState reading
         |> setImagePreview (Some (createObjectURL file)),
       Some file)
  end.

(** [handleFileSelect], from the settling of [exifr.parse] to the end. *)
Definition handleFileSelect_resume (file : Dom.File) (s : AppState) : AppState :=
  s |> setMetadata (Some (extract file))
    |> setProcessingState idle.

(** [handleFileSelect] with nothing else running in between. *)
Definition handleFileSelect (files : list Dom.File) (s : AppState) : AppState :=
  match handleFileSelect_begin files s with
  | (s', Some file) => handleFileSelect_resume file s'
  | (s', None) => s'
  end.

End Extract.

(** ** The clean step, the add-to-design handlers and reset *)

(** [selectedFile.type === "image/png" ? "image/png" : "image/jpeg"] *)
Definition targetMime (file : Dom.File) : string :=
  if String.eqb (Dom.type file) "image/png" then "image/png" else "image/jpeg".

(** The quality argument of [toBlob]: 0.95. *)
Definition quality : Q := 95 # 100.

(** The [await] of a promise built around a callback that either delivers a
    value or makes the promise reject with [new Error(message)]. *)
Definition orReject {A} (v : option A) (message : string) : completion A :=
  match v with
  | Some a => Normal a
  | None => Throw (Error message)
  end.

Section Clean.
Context `{Platform}.

(** The promise around the [FileReader]. *)
Definition awaitDataUrl (r : Dom.ReadResult) : completion string :=
  match r with
  | Dom.ReadString s => Normal s
  | Dom.ReadOther => Throw (Error (formatMessage "Failed to read image data"))
  | Dom.ReadFails => Throw DOMException
  end.

(** The body of the [try] block of [handleCleanMetadata], up to the two
    values it stores: the data URL and the dimensions. *)
Definition cleanAttempt (file : Dom.File) : completion (string * Size) :=
  img ← orReject (image_load file) (formatMessage "Failed to load image");
  let canvas := Dom.createCanvas (Dom.naturalWidth img) (Dom.naturalHeight img) in
  _ ← (if getContext2d canvas then Normal ()
       else Throw (Error (formatMessage "Failed to get canvas context")));
  let canvas := Dom.drawImageAtOrigin canvas img in
  cleanedBlob ← orReject (toBlob canvas (targetMime file) quality)
                   (formatMessage "Failed to create cleaned image");
  dataUrl ← awaitDataUrl (readAsDataURL cleanedBlob);
  mret (dataUrl,
        {| size_width := Dom.naturalWidth img;
           size_height := Dom.naturalHeight img |}).

(** [handleCleanMetadata], from the call to the first [await]. *)
Definition handleCleanMetadata_begin (s : AppState) : AppState * option Dom.File :=
  match selectedFile s with
  | None => (s, None)
  | Some file =>
      (s |> setProcessingState cleaning
         |> setError None,
       Some file)
  end.

(** [handleCleanMetadata], from the last settling to the end: the stores of
    the [try] block, or the [catch] block. *)
Definition handleCleanMetadata_resume (file : Dom.File) (s : AppState) : AppState :=
  try_catch (cleanAttempt file)
    (fun '(dataUrl, size) =>
       s |> setCleanedImageUrl (Some dataUrl)
         |> setCleanedImageSize (Some size)
         |> setProcessingState done)
    (s |> setError (Some (formatMessage "Failed to clean metadata. Please try again."))
       |> setProcessingState idle).

(** [handleCleanMetadata] with nothing else running in between. *)
Definition handleCleanMetadata (s : AppState) : AppState :=
  match handleCleanMetadata_begin s with
  | (s', Some file) => handleCleanMetadata_resume file s'
  | (s', None) => s'
  end.

(** [[addElementAtPoint, addElementAtCursor].find((fn) => isSupported(fn))] *)
Definition supportedAddElement : option Host.AddElementFn :=
  List.find (fun fn => isSupported (Host.AddElement fn))
    [Host.addElementAtPoint; Host.addElementAtCursor].

(** The argument of [upload], the same in [handleClick] and in
    [handleDragStart]. *)
Definition uploadRequest (file : Dom.File) (cleanedImageUrl : string) (size : Size)
  : Host.UploadRequest :=
  {| Host.upload_type := "image";
     Host.mimeType := targetMime file;
     Host.url := cleanedImageUrl;
     Host.thumbnailUrl := cleanedImageUrl;
     Host.aiDisclosure := "none";
     Host.upload_width := size_width size;
     Host.upload_height := size_height size |}.

(** What [handleClick] has captured when it passes its guard. *)
Record AddJob := {
  job_request : Host.UploadRequest;
  job_addElement : Host.AddElementFn
}.

(** The guard of [handleClick]:
    [!cleanedImageUrl || !selectedFile || !addElement || !cleanedImageSize]. *)
Definition handleClick_begin (s : AppState) : option AddJob :=
  match cleanedImageUrl s, selectedFile s, supportedAddElement, cleanedImageSize s with
  | Some u, Some file, Some fn, Some size =>
      if string_truthy u
      then Some {| job_request := uploadRequest file u size; job_addElement := fn |}
      else None
  | _, _, _, _ => None
  end.

Definition imageElement (asset : Host.AssetRef) : Host.ImageElement :=
  {| Host.element_type := "image";
     Host.ref := asset;
     Host.altText :=
       {| Host.text := formatMessage "Image with metadata removed";
          Host.decorative := false |} |}.

(** The body of the [try] block of [handleClick]. *)
Definition addAttempt (job : AddJob) : completion unit :=
  asset ← upload (job_request job);
  addElement (job_addElement job) (imageElement asset).

(** The host call [handleClick] makes before it suspends. *)
Definition uploadCall (job : AddJob) : list Host.Call :=
  [Host.Upload (job_request job)].

(** The host call it makes once the upload has settled, if it resolved. *)
Definition addCall (job : AddJob) : list Host.Call :=
  match upload (job_request job) with
  | Normal asset => [Host.Add (job_addElement job) (imageElement asset)]
  | Throw _ => []
  end.

(** [handleClick], from the settling of its awaits to the end. *)
Definition handleClick_resume (job : AddJob) (s : AppState) : AppState :=
  try_catch (addAttempt job)
    (fun _ => s)
    (s |> setError (Some (formatMessage "Failed to add image to design. Please try again."))).

(** [handleClick] with nothing else running in between: the new state and
    the calls made into the host. *)
Definition handleClick (s : AppState) : AppState * list Host.Call :=
  match handleClick_begin s with
  | None => (s, [])
  | Some job => (handleClick_resume job s, (uploadCall job ++ addCall job)%list)
  end.

(** [handleDragStart]: synchronous, changes no state; the calls it makes
    into the host. *)
Definition handleDragStart (s : AppState) : AppState * list Host.Call :=
  match cleanedImageUrl s, selectedFile s, cleanedImageSize s with
  | Some u, Some file, Some size =>
      if string_truthy u then
        let dragData :=
          {| Host.drag_type := "image";
             Host.resolveImageRef := uploadRequest file u size;
             Host.previewUrl := u;
             Host.previewSize := {| size_width := 100; size_height := 100 |};
             Host.fullSize :=
               {| size_width := size_width size; size_height := size_height size |} |} in
        (s,
         if isSupported (Host.StartDrag Host.startDragToPoint)
         then [Host.Drag Host.startDragToPoint dragData]
         else if isSupported (Host.StartDrag Host.startDragToCursor)
         then [Host.Drag Host.startDragToCursor dragData]
         else [])
      else (s, [])
  | _, _, _ => (s, [])
  end.

End Clean.

(** The canvas handed to [toBlob]: created with the image's natural size,
    the image drawn on it. *)
Definition drawnCanvas (img : Dom.Image) : Dom.Canvas :=
  Dom.drawImageAtOrigin
    (Dom.createCanvas (Dom.naturalWidth img) (Dom.naturalHeight img)) img.

Definition handleReset (s : AppState) : AppState :=
  s |> setSelectedFile None
    |> setImagePreview None
    |> setMetadata None
    |> setCleanedImageUrl None
    |> setCleanedImageSize None
    |> setProcessingState idle
    |> setError None.

(** ** What the component renders *)

Record MetadataRow := { label : string; value : string; isRisk : bool }.

(** The box of detected metadata holds the rows and, after them, whatever
    else the last child expression leaves to print. *)
Inductive MetadataPanel :=
| NoMetadataFound
| MetadataBox (rows : list MetadataRow) (text : option string).

(** The block under the title "Detected metadata". *)
Record MetadataSection := {
  riskAlert : bool;
  panel : MetadataPanel
}.

Inductive ActionArea :=
| CleaningIndicator
| DoneArea (imageCard : option string)
| IdleArea (cleanDisabled : bool).

Record FileView := {
  preview : option string;
  fileInfo : string * string;
  readingIndicator : bool;
  metadataSection : option MetadataSection;
  actions : ActionArea
}.

Inductive Content :=
| FileInput (accept : list string)
| Selected (v : FileView).

Record View := {
  errorAlert : option string;
  content : Content
}.

(** The condition of the ternary that chooses the "No metadata found" alert:
    [Object.keys(metadata).length === 0 ||
     (Object.keys(metadata).length === 1 && metadata.raw)]. *)
Definition noMetadataFound (m : MetadataInfo) : bool :=
  Nat.eqb (keysLength m) 0 || (Nat.eqb (keysLength m) 1 && object_truthy (get (raw m))).

(** [cond && element] inside a list of children. *)
Definition when {A} (cond : bool) (a : A) : list A := if cond then [a] else [].

Section Render.
Context `{Platform}.

Definition formatGPS (lat lng : option number) : option string :=
  match lat, lng with
  | Some lat, Some lng => Some (String.append (Number_toFixed lat 6)
                              (String.append ", " (Number_toFixed lng 6)))
  | _, _ => None
  end.

Definition formatFileSize (bytes : N) : string :=
  Number_toFixed (Finite (Z.of_N bytes # 1024)) 1.

(** A row guarded by a string field: [metadata.f && <MetadataRow ... />]. *)
Definition stringRow (f : prop string) (l : string) (risk : bool) : list MetadataRow :=
  match get f with
  | Some v => when (string_truthy v)
                {| label := formatMessage l; value := v; isRisk := risk |}
  | None => []
  end.

Definition metadataRows (m : MetadataInfo) : list MetadataRow :=
  (match formatGPS (get (latitude m)) (get (longitude m)) with
   | Some v => [{| label := formatMessage "GPS location"; value := v; isRisk := true |}]
   | None => []
   end ++
   stringRow (dateTimeOriginal m) "Date taken" true ++
   stringRow (make m) "Camera make" true ++
   stringRow (model m) "Camera model" true ++
   stringRow (software m) "Software" false ++
   stringRow (artist m) "Artist" true ++
   stringRow (copyright m) "Copyright" false ++
   match get (imageWidth m), get (imageHeight m) with
   | Some w, Some h =>
       when (number_truthy w && number_truthy h)
         {| label := formatMessage "Dimensions";
            value := String.append (Number_toString w)
                       (String.append " x " (Number_toString h));
            isRisk := false |}
   | _, _ => []
   end)%list.

(** [metadata.imageWidth && metadata.imageHeight && <MetadataRow ... />]
    when it is not the row: the expression is then its first falsy operand;
    [undefined] prints nothing, but a number, zero or NaN, is printed as
    text in the box. *)
Definition dimensionsText (m : MetadataInfo) : option string :=
  match get (imageWidth m) with
  | None => None
  | Some w =>
      if number_truthy w then
        match get (imageHeight m) with
        | None => None
        | Some h => if number_truthy h then None else Some (Number_toString h)
        end
      else Some (Number_toString w)
  end.

Definition metadataPanel (m : MetadataInfo) : MetadataPanel :=
  if noMetadataFound m then NoMetadataFound
  else MetadataBox (metadataRows m) (dimensionsText m).

Definition renderActions (s : AppState) : ActionArea :=
  match processingState s with
  | cleaning => CleaningIndicator
  | done =>
      DoneArea (match cleanedImageUrl s with
                | Some u => if string_truthy u then Some u else None
                | None => None
                end)
  | _ =>
      IdleArea (negb (object_truthy (metadata s))
                || bool_decide (processingState s = reading))
  end.

Definition render (s : AppState) : View :=
  {| errorAlert :=
       match error s with
       | Some e => if string_truthy e then Some e else None
       | None => None
       end;
     content :=
       match selectedFile s with
       | None => FileInput ["image/jpeg"; "image/png"; "image/webp"; "image/tiff"]
       | Some file =>
           Selected
             {| preview :=
                  match imagePreview s with
                  | Some u => if string_truthy u then Some u else None
                  | None => None
                  end;
                fileInfo := (Dom.name file, formatFileSize (Dom.size file));
                readingIndicator := bool_decide (processingState s = reading);
                metadataSection :=
                  match metadata s with
                  | Some m =>
                      if bool_decide (processingState s = reading) then None
                      else Some
                        {| riskAlert := truthy (fun b => b) (hasPrivacyRisks (metadata s));
                           panel := metadataPanel m |}
                  | None => None
                  end;
                actions := renderActions s |}
       end |}.

End Render.

(** ** The session as an event-driven system

    Handlers do not run to completion in one piece: [handleFileSelect],
    [handleCleanMetadata] and [handleClick] suspend at an [await] and their
    continuation runs later, with whatever the state has become.  A world
    holds the state, the suspended handlers, and the calls made so far into
    the host. *)

Inductive Task :=
| Parsing (file : Dom.File)
| Cleaning (file : Dom.File)
| Adding (job : AddJob).

Record World := {
  app : AppState;
  pending : list Task;
  calls : list Host.Call
}.

Definition initialWorld : World :=
  {| app := initialState; pending := []; calls := [] |}.

Inductive UserEvent :=
| DropAcceptedFiles (files : list Dom.File)
| ClickCleanMetadata
| ClickReset
| ClickImageCard
| DragImageCard.

Inductive Event :=
| User (u : UserEvent)
| Settle (n : nat).

(** Whether the rendered tree contains an enabled control for the event. *)
Definition offered (v : View) (u : UserEvent) : bool :=
  match content v, u with
  | FileInput accept, DropAcceptedFiles files =>
      forallb (fun f => bool_decide (Dom.type f ∈ accept)) files
  | Selected fv, ClickCleanMetadata =>
      match actions fv with
      | IdleArea cleanDisabled => negb cleanDisabled
      | _ => false
      end
  | Selected fv, ClickReset =>
      match actions fv with
      | CleaningIndicator => false
      | _ => true
      end
  | Selected fv, (ClickImageCard | DragImageCard) =>
      match actions fv with
      | DoneArea (Some _) => true
      | _ => false
      end
  | _, _ => false
  end.

Section Session.
Context `{Platform}.

(** A handler is invoked: its synchronous part runs, and what it awaits is
    added to the suspended handlers. *)
Definition invoke (u : UserEvent) (w : World) : World :=
  match u with
  | DropAcceptedFiles files =>
      let '(s, t) := handleFileSelect_begin files (app w) in
      {| app := s;
         pending := (pending w ++ match t with Some f => [Parsing f] | None => [] end)%list;
         calls := calls w |}
  | ClickCleanMetadata =>
      let '(s, t) := handleCleanMetadata_begin (app w) in
      {| app := s;
         pending := (pending w ++ match t with Some f => [Cleaning f] | None => [] end)%list;
         calls := calls w |}
  | ClickReset =>
      {| app := handleReset (app w); pending := pending w; calls := calls w |}
  | ClickImageCard =>
      match handleClick_begin (app w) with
      | Some job =>
          {| app := app w; pending := (pending w ++ [Adding job])%list;
             calls := (calls w ++ uploadCall job)%list |}
      | None => w
      end
  | DragImageCard =>
      let '(s, cs) := handleDragStart (app w) in
      {| app := s; pending := pending w; calls := (calls w ++ cs)%list |}
  end.

(** The continuation of a suspended handler. *)
Definition continue (t : Task) (s : AppState) : AppState :=
  match t with
  | Parsing file => handleFileSelect_resume file s
  | Cleaning file => handleCleanMetadata_resume file s
  | Adding job => handleClick_resume job s
  end.

(** The host calls a continuation makes. *)
Definition continueCalls (t : Task) : list Host.Call :=
  match t with
  | Adding job => addCall job
  | _ => []
  end.

Definition step (e : Event) (w : World) : option World :=
  match e with
  | User u =>
      if offered (render (app w)) u then Some (invoke u w) else None
  | Settle n =>
      match pending w !! n with
      | Some t =>
          Some {| app := continue t (app w);
                  pending := delete n (pending w);
                  calls := (calls w ++ continueCalls t)%list |}
      | None => None
      end
  end.

Fixpoint run (es : list Event) (w : World) : option World :=
  match es with
  | [] => Some w
  | e :: es =>
      match step e w with
      | Some w' => run es w'
      | None => None
      end
  end.

End Session.

(** ** The projection as the specification words it

    "first present wins": the first tag when it is present, whatever its
    value, and the second tag otherwise. *)
Definition firstPresent {A} (first second : option A) : option A :=
  match first with
  | Some v => Some v
  | None => second
  end.

(** ** A concrete platform and concrete files, to run the component on *)

Module Demo.

Definition photo : Dom.File :=
  {| Dom.name := "photo.jpg"; Dom.type := "image/jpeg"; Dom.size := 4;
     Dom.bytes := [Byte.xff; Byte.xd8; Byte.xff; Byte.xe1] |}.

Definition logo : Dom.File :=
  {| Dom.name := "logo.png"; Dom.type := "image/png"; Dom.size := 4;
     Dom.bytes := [Byte.x89; Byte.x50; Byte.x4e; Byte.x47] |}.

Definition scan : Dom.File :=
  {| Dom.name := "scan.webp"; Dom.type := "image/webp"; Dom.size := 4;
     Dom.bytes := [Byte.x52; Byte.x49; Byte.x46; Byte.x46] |}.

(** Ten bytes that are no image, declared as JPEG. *)
Definition garbage : Dom.File :=
  {| Dom.name := "garbage.jpg"; Dom.type := "image/jpeg"; Dom.size := 10;
     Dom.bytes := [Byte.x00; Byte.x01; Byte.x02; Byte.x03; Byte.x04;
                   Byte.x05; Byte.x06; Byte.x07; Byte.x08; Byte.x09] |}.

(** A file whose tag set the parser delivers as the empty object. *)
Definition bare : Dom.File :=
  {| Dom.name := "bare.jpg"; Dom.type := "image/jpeg"; Dom.size := 2;
     Dom.bytes := [Byte.xff; Byte.xd8] |}.

Definition photoTags : Exifr.ExifData :=
  {| Exifr.latitude := Some (Finite (37422 # 1000));
     Exifr.longitude := Some (Finite (-122084 # 1000));
     Exifr.DateTime := Some (Exifr.IsString "2024:05:01 10:00:00");
     Exifr.DateTimeOriginal := Some (Exifr.IsDate {| getTime := 1714557600000 |});
     Exifr.Make := Some "Acme";
     Exifr.Model := Some "A1";
     Exifr.Software := None;
     Exifr.ImageWidth := None;
     Exifr.ImageHeight := None;
     Exifr.ExifImageWidth := Some (Finite 4000);
     Exifr.ExifImageHeight := Some (Finite 3000);
     Exifr.Orientation := Some (Finite 1);
     Exifr.Artist := None;
     Exifr.Copyright := None;
     Exifr.others := {[ "ISO" := Exifr.TagNumber (Finite 100) ]} |}.

(** A tag set whose [ImageWidth] is present with value zero. *)
Definition zeroWidthTags : Exifr.ExifData :=
  {| Exifr.latitude := None; Exifr.longitude := None; Exifr.DateTime := None;
     Exifr.DateTimeOriginal := None; Exifr.Make := None; Exifr.Model := None;
     Exifr.Software := None;
     Exifr.ImageWidth := Some (Finite 0);
     Exifr.ImageHeight := Some (Finite 3000);
     Exifr.ExifImageWidth := Some (Finite 4000);
     Exifr.ExifImageHeight := Some (Finite 3000);
     Exifr.Orientation := None; Exifr.Artist := None; Exifr.Copyright := None;
     Exifr.others := ∅ |}.

Definition white : Dom.RGBA :=
  {| Dom.red := 255; Dom.green := 255; Dom.blue := 255; Dom.alpha := 255 |}.

(** A [w] by [h] image, all white. *)
Definition blankImage (w h : nat) : Dom.Image :=
  {| Dom.naturalWidth := N.of_nat w; Dom.naturalHeight := N.of_nat h;
     Dom.pixels := replicate h (replicate w white) |}.

Definition named (file : Dom.File) (n : string) : bool :=
  String.eqb (Dom.name file) n.

Definition platform : Platform :=
  {| formatMessage := fun defaultMessage => defaultMessage;
     Date_toString := fun _ => "Wed May 01 2024 10:00:00 GMT+0000";
     Number_toFixed := fun _ _ => "0.0";
     Number_toString := fun _ => "0";
     createObjectURL := fun file => String.append "blob:" (Dom.name file);
     exifr_parse := fun file _ =>
       if named file "photo.jpg" then Exifr.Resolves (Some photoTags)
       else if named file "bare.jpg" then Exifr.Resolves (Some Exifr.no_tags)
       else if named file "garbage.jpg" then Exifr.Rejects LibraryFault
       else Exifr.Resolves None;
     image_load := fun file =>
       if named file "photo.jpg" then Some (blankImage 4 3)
       else if named file "logo.png" then Some (blankImage 3 2)
       else if named file "scan.webp" then Some (blankImage 2 1)
       else None;
     getContext2d := fun _ => true;
     toBlob := fun canvas type _ =>
       Some {| Dom.blob_type := type;
               Dom.blob_bytes := replicate (length (Dom.surface canvas)) Byte.x2a |};
     readAsDataURL := fun blob =>
       Dom.ReadString
         (String.append "data:"
            (String.append (Dom.blob_type blob)
               (String.append ";rows="
                  (match length (Dom.blob_bytes blob) with
                   | 1 => "1" | 2 => "2" | 3 => "3" | _ => "?"
                   end))));
     isSupported := fun _ => true;
     upload := fun _ => Normal {| Host.ref_id := 1 |};
     addElement := fun _ _ => Normal () |}.

(** Selecting [photo], resetting while it is still being read, selecting
    [logo], cleaning it, and resetting again once the late reading of
    [photo] has put the session back to idle: the clean of [logo] is still
    in flight. *)
Definition raceTrace : list Event :=
  [ User (DropAcceptedFiles [photo]);
    User ClickReset;
    User (DropAcceptedFiles [logo]);
    Settle 1;
    User ClickCleanMetadata;
    Settle 0;
    User ClickReset ].

End Demo.

(** ** What a session keeps

    Predicates on worlds, for the statements about whole sessions. *)

Section Consistency.
Context `{Platform}.

(** A data URL and a size that one clean attempt produced together. *)
Definition cleanResult (dataUrl : string) (size : Size) : Prop :=
  ∃ file, cleanAttempt file = Normal (dataUrl, size).

(** An upload request for a re-encoded image: its URL and dimensions come
    from one clean attempt, the thumbnail is the same URL, and the declared
    type is one of the two target types. *)
Definition reencoded (req : Host.UploadRequest) : Prop :=
  cleanResult (Host.url req)
    {| size_width := Host.upload_width req; size_height := Host.upload_height req |}
  ∧ Host.thumbnailUrl req = Host.url req
  ∧ (Host.mimeType req = "image/png" ∨ Host.mimeType req = "image/jpeg").

Definition callReencoded (c : Host.Call) : Prop :=
  match c with
  | Host.Upload req => reencoded req
  | Host.Drag _ cfg =>
      reencoded (Host.resolveImageRef cfg)
      ∧ Host.previewUrl cfg = Host.url (Host.resolveImageRef cfg)
  | Host.Add _ _ => True
  end.

Record consistent (w : World) : Prop := {
  (** the preview is the object URL of the selected file *)
  keeps_preview :
    imagePreview (app w) = createObjectURL <$> selectedFile (app w);
  (** a stored data URL comes with the dimensions of the same attempt *)
  keeps_cleaned :
    ∀ u, cleanedImageUrl (app w) = Some u →
         ∃ size, cleanedImageSize (app w) = Some size ∧ cleanResult u size;
  (** "done" means a cleaned image is stored *)
  keeps_done :
    processingState (app w) = done → is_Some (cleanedImageUrl (app w));
  (** "reading" means the parse of the selected file is in flight *)
  keeps_reading :
    processingState (app w) = reading →
    metadata (app w) = None ∧ cleanedImageUrl (app w) = None
    ∧ ∃ file, selectedFile (app w) = Some file ∧ Parsing file ∈ pending w;
  (** "cleaning" means the clean of the selected file is in flight *)
  keeps_cleaning :
    processingState (app w) = cleaning →
    ∃ file, selectedFile (app w) = Some file ∧ Cleaning file ∈ pending w;
  (** suspended add-to-design handlers hold re-encoded images *)
  keeps_jobs :
    ∀ job, Adding job ∈ pending w → reencoded (job_request job);
  (** so do the calls already made *)
  keeps_calls :
    Forall callReencoded (calls w)
}.

(** The worlds a session can be in. *)
Definition reachable (w : World) : Prop :=
  ∃ es, run es initialWorld = Some w.

End Consistency.

(** * Properties *)

(** ** Reading properties *)

Lemma defined_populated {T} (p : prop T) : defined p = true ↔ populated p.
Proof.
  unfold defined, populated. destruct (get p); split; intros Hp;
    try done; try by eexists.
Qed.


Lemma not_populated_get {T} (p : prop T) : ¬ populated p ↔ get p = None.
Proof.
  unfold populated. destruct (get p); split; intros Hp; try done.
  exfalso. apply Hp. by eexists.
Qed.

(** ** Classification *)

(** C3.  For every record, the has-risk flag is [true] exactly when one of
    latitude, longitude, dateTimeOriginal, make, model or artist is populated;
    hence it is [false] for every record in which none of them is, whatever
    software, copyright, imageWidth and imageHeight hold. *)
Theorem classify_correct (m : MetadataInfo) :
  (hasPrivacyRisks (Some m) = Some true ↔
     populated (latitude m) ∨ populated (longitude m) ∨
     populated (dateTimeOriginal m) ∨ populated (make m) ∨
     populated (model m) ∨ populated (artist m))
  ∧ (¬ populated (latitude m) → ¬ populated (longitude m) →
     ¬ populated (dateTimeOriginal m) → ¬ populated (make m) →
     ¬ populated (model m) → ¬ populated (artist m) →
     hasPrivacyRisks (Some m) = Some false).
Proof.
  assert (Hiff : riskFieldDefined m = true ↔
     populated (latitude m) ∨ populated (longitude m) ∨
     populated (dateTimeOriginal m) ∨ populated (make m) ∨
     populated (model m) ∨ populated (artist m)).
  { unfold riskFieldDefined.
    rewrite !orb_true_iff, !defined_populated. tauto. }
  split.
  - simpl. rewrite <- Hiff. split; [by intros [= ->] | by intros ->].
  - intros Hlat Hlng Hdto Hmake Hmodel Hartist. simpl. f_equal.
    destruct (riskFieldDefined m); [| done].
    destruct Hiff as [Hrisk _]. specialize (Hrisk eq_refl). tauto.
Qed.

(** A record that holds only software, copyright and the two dimensions. *)
Lemma classify_correct_witness :
  let m := {| latitude := Own None; longitude := Own None; dateTime := Own None;
              dateTimeOriginal := Own None; make := Own None; model := Missing;
              software := Own (Some "Editor 1.0");
              imageWidth := Own (Some (Finite 640));
              imageHeight := Own (Some (Finite 480));
              orientation := Missing; artist := Own None;
              copyright := Own (Some "(c) someone"); raw := Missing |} in
  hasPrivacyRisks (Some m) = Some false.
Proof.
  intros m. apply (classify_correct m); apply not_populated_get; reflexivity.
Defined.

(** ** The name-mapping table *)

Section ProjectionRun.
#[local] Existing Instance Demo.platform.

(** C5, as stated, fails: with [ImageWidth] present with value zero and
  [ExifImageWidth] 4000, "first present wins" gives 0 but the record holds
  4000. *)
Lemma projection_zero_width_counterexample :
get (imageWidth (parsedMetadata Demo.zeroWidthTags)) = Some (Finite 4000)
∧ firstPresent (Exifr.ImageWidth Demo.zeroWidthTags)
    (Exifr.ExifImageWidth Demo.zeroWidthTags) = Some (Finite 0)
∧ get (imageWidth (parsedMetadata Demo.zeroWidthTags))
  ≠ firstPresent (Exifr.ImageWidth Demo.zeroWidthTags)
      (Exifr.ExifImageWidth Demo.zeroWidthTags).
Proof. split; [reflexivity | split; [reflexivity | discriminate]]. Qed.

End ProjectionRun.

Section Projection.
Context `{Platform}.

Lemma or_truthy {A} (t : A → bool) (a : A) (b : option A) :
  t a = true → JS.or t (Some a) b = Some a.
Proof. unfold JS.or. simpl. by intros ->. Qed.

Lemma or_falsy {A} (t : A → bool) (a : A) (b : option A) :
  t a = false → JS.or t (Some a) b = b.
Proof. unfold JS.or. simpl. by intros ->. Qed.

Lemma or_absent {A} (t : A → bool) (b : option A) : JS.or t None b = b.
Proof. reflexivity. Qed.

(** C5, amended.  The projection follows the table; [imageWidth]
    ([imageHeight]) takes [ImageWidth] ([ImageHeight]) when that tag is
    present and truthy, and [ExifImageWidth] ([ExifImageHeight]) when the
    first tag is absent, zero or NaN. *)
Theorem projection_table (d : Exifr.ExifData) :
  let m := parsedMetadata d in
  get (latitude m) = Exifr.latitude d
  ∧ get (longitude m) = Exifr.longitude d
  ∧ get (dateTime m) = toString <$> Exifr.DateTime d
  ∧ get (dateTimeOriginal m) = toString <$> Exifr.DateTimeOriginal d
  ∧ get (make m) = Exifr.Make d
  ∧ get (model m) = Exifr.Model d
  ∧ get (software m) = Exifr.Software d
  ∧ get (orientation m) = Exifr.Orientation d
  ∧ get (artist m) = Exifr.Artist d
  ∧ get (copyright m) = Exifr.Copyright d
  ∧ get (raw m) = Some d
  ∧ (∀ w, Exifr.ImageWidth d = Some w → number_truthy w = true →
       get (imageWidth m) = Some w)
  ∧ (∀ w, Exifr.ImageWidth d = Some w → number_truthy w = false →
       get (imageWidth m) = Exifr.ExifImageWidth d)
  ∧ (Exifr.ImageWidth d = None → get (imageWidth m) = Exifr.ExifImageWidth d)
  ∧ (∀ h, Exifr.ImageHeight d = Some h → number_truthy h = true →
       get (imageHeight m) = Some h)
  ∧ (∀ h, Exifr.ImageHeight d = Some h → number_truthy h = false →
       get (imageHeight m) = Exifr.ExifImageHeight d)
  ∧ (Exifr.ImageHeight d = None → get (imageHeight m) = Exifr.ExifImageHeight d).
Proof.
  simpl. repeat split.
  - intros w -> Hw. by apply or_truthy.
  - intros w -> Hw. by apply or_falsy.
  - by intros ->.
  - intros h -> Hh. by apply or_truthy.
  - intros h -> Hh. by apply or_falsy.
  - by intros ->.
Qed.

(** Where the first tag is not falsy the code and "first present wins"
    agree. *)
Lemma or_firstPresent (a b : option number) :
  (∀ w, a = Some w → number_truthy w = true) →
  JS.or number_truthy a b = firstPresent a b.
Proof.
  destruct a as [w|]; [| done].
  intros Hw. simpl. by apply or_truthy, Hw.
Qed.

End Projection.

Section ProjectionWitness.
#[local] Existing Instance Demo.platform.

(** On the demonstration tags: the height comes from the first tag, the width
  falls through the zero to the second, and a string date is kept as it is. *)
Lemma projection_table_witness :
get (imageHeight (parsedMetadata Demo.zeroWidthTags)) = Some (Finite 3000)
∧ get (imageWidth (parsedMetadata Demo.zeroWidthTags)) = Some (Finite 4000)
∧ get (imageWidth (parsedMetadata Demo.photoTags)) = Some (Finite 4000)
∧ get (dateTime (parsedMetadata Demo.photoTags)) = Some "2024:05:01 10:00:00".
Proof.
pose proof (projection_table Demo.zeroWidthTags) as Hz.
pose proof (projection_table Demo.photoTags) as Hp.
cbv zeta in Hz, Hp.
destruct Hz as (_ & _ & _ & _ & _ & _ & _ & _ & _ & _ & _ & _ & Hw0 & _ & Hh & _).
destruct Hp as (_ & _ & Hdt & _ & _ & _ & _ & _ & _ & _ & _ & _ & _ & Hw & _).
split; [| split; [| split]].
- apply Hh; reflexivity.
- rewrite (Hw0 (Finite 0)); reflexivity.
- rewrite Hw; reflexivity.
- rewrite Hdt. reflexivity.
Defined.

End ProjectionWitness.

(** ** Extraction *)

Section Extraction.
Context `{Platform}.

Lemma extract_rejected file e :
  exifr_parse file parseOptions = Exifr.Rejects e → extractAttempt file = Throw e.
Proof. unfold extractAttempt. by intros ->. Qed.

Lemma extract_absorbs file e : extractAttempt file = Throw e → extract file = emptyObject.
Proof. unfold extract. by intros ->. Qed.

Lemma handleFileSelect_cons file rest s :
  handleFileSelect (file :: rest) s =
  {| selectedFile := Some file;
     imagePreview := Some (createObjectURL file);
     metadata := Some (extract file);
     processingState := idle;
     error := None;
     cleanedImageUrl := None;
     cleanedImageSize := cleanedImageSize s |}.
Proof. reflexivity. Qed.

(** C2.  Whatever the bytes of the selected file and however the parser
    ends on them, [handleFileSelect] stores a record and returns to idle
    with no error; when the parser rejects, or anything else throws inside
    the [try] block, or the parser resolves to [null], the record stored is
    the empty object. *)
Theorem extract_total (file : Dom.File) (rest : list Dom.File) (s : AppState) :
  let s' := handleFileSelect (file :: rest) s in
  metadata s' = Some (extract file)
  ∧ processingState s' = idle
  ∧ error s' = None
  ∧ (∀ e, exifr_parse file parseOptions = Exifr.Rejects e → extract file = emptyObject)
  ∧ (∀ e, extractAttempt file = Throw e → extract file = emptyObject)
  ∧ (exifr_parse file parseOptions = Exifr.Resolves None → extract file = emptyObject)
  ∧ (∀ d, exifr_parse file parseOptions = Exifr.Resolves (Some d) →
       extract file = parsedMetadata d).
Proof.
  rewrite handleFileSelect_cons. simpl. repeat split.
  - intros e He. eapply extract_absorbs, extract_rejected, He.
  - apply extract_absorbs.
  - unfold extract, extractAttempt. by intros ->.
  - intros d. unfold extract, extractAttempt. by intros ->.
Qed.

End Extraction.

Section ExtractionWitness.
#[local] Existing Instance Demo.platform.

(** Ten bytes that are no image: the parser rejects, the record is empty. *)
Lemma extract_total_witness :
  metadata (handleFileSelect [Demo.garbage] initialState) = Some emptyObject
  ∧ extract Demo.photo = parsedMetadata Demo.photoTags.
Proof.
  destruct (extract_total Demo.garbage [] initialState)
    as (Hm & _ & _ & Hrej & _).
  destruct (extract_total Demo.photo [] initialState)
    as (_ & _ & _ & _ & _ & _ & Hres).
  split.
  - transitivity (Some (extract Demo.garbage)); [exact Hm |].
    exact (f_equal Some (Hrej LibraryFault eq_refl)).
  - apply Hres. reflexivity.
Defined.

End ExtractionWitness.

(** ** The "no metadata found" alert *)

Lemma empty_record_reported_empty : noMetadataFound emptyObject = true.
Proof. reflexivity. Qed.

(** An object whose single own key is [raw] is reported as empty too. *)
Lemma single_raw_key_reported_empty (d : Exifr.ExifData) :
  noMetadataFound
    {| latitude := Missing; longitude := Missing; dateTime := Missing;
       dateTimeOriginal := Missing; make := Missing; model := Missing;
       software := Missing; imageWidth := Missing; imageHeight := Missing;
       orientation := Missing; artist := Missing; copyright := Missing;
       raw := Own (Some d) |} = true.
Proof. reflexivity. Qed.


Section Reporting.
Context `{Platform}.

(** The object literal built after a successful parse has thirteen own
    keys, so it is never reported as empty. *)
Lemma parsed_record_never_reported_empty (d : Exifr.ExifData) :
  keysLength (parsedMetadata d) = 13 ∧ noMetadataFound (parsedMetadata d) = false.
Proof. split; reflexivity. Qed.


End Reporting.

Section ReportingWitness.
#[local] Existing Instance Demo.platform.


End ReportingWitness.

(** ** Cleaning *)

Section Cleaning.
Context `{Platform}.

(** A successful attempt went through every stage. *)
Lemma cleanAttempt_normal file dataUrl size :
  cleanAttempt file = Normal (dataUrl, size) →
  ∃ img blob,
    image_load file = Some img
    ∧ getContext2d (Dom.createCanvas (Dom.naturalWidth img) (Dom.naturalHeight img)) = true
    ∧ toBlob (drawnCanvas img) (targetMime file) quality = Some blob
    ∧ readAsDataURL blob = Dom.ReadString dataUrl
    ∧ size = {| size_width := Dom.naturalWidth img;
                size_height := Dom.naturalHeight img |}.
Proof.
  unfold cleanAttempt, drawnCanvas.
  destruct (image_load file) as [img |]; [| discriminate]. simpl.
  destruct (getContext2d _) eqn:Hctx; [| discriminate]. simpl.
  destruct (toBlob _ _ _) as [blob |] eqn:Hblob; [| discriminate]. simpl.
  destruct (readAsDataURL blob) as [| url |] eqn:Hread; try discriminate. simpl.
  intros [= -> <-]. by exists img, blob.
Qed.

Lemma targetMime_png file :
  targetMime file = "image/png" ↔ Dom.type file = "image/png".
Proof.
  unfold targetMime.
  destruct (String.eqb_spec (Dom.type file) "image/png") as [-> | Hne]; [done |].
  split; [discriminate | by intros ?].
Qed.

Lemma targetMime_jpeg file :
  Dom.type file ≠ "image/png" → targetMime file = "image/jpeg".
Proof.
  unfold targetMime.
  by destruct (String.eqb_spec (Dom.type file) "image/png").
Qed.

Lemma handleCleanMetadata_selected s file :
  selectedFile s = Some file →
  handleCleanMetadata s =
  handleCleanMetadata_resume file (s |> setProcessingState cleaning |> setError None).
Proof. unfold handleCleanMetadata, handleCleanMetadata_begin. by intros ->. Qed.

(** C4.  When a clean succeeds, the bytes behind the stored data URL are
    what [toBlob] produced for the target type, which is PNG exactly when
    the file's declared type is PNG and JPEG otherwise, at quality 0.95,
    from a canvas of the image's natural size; the stored dimensions are
    the natural width and height. *)
Theorem clean_format_and_dimensions
    (s : AppState) (file : Dom.File) (dataUrl : string) (size : Size) :
  selectedFile s = Some file →
  cleanAttempt file = Normal (dataUrl, size) →
  (∃ img blob,
      image_load file = Some img
      ∧ toBlob {| Dom.width := Dom.naturalWidth img;
                  Dom.height := Dom.naturalHeight img;
                  Dom.surface := Dom.pixels img |}
          (targetMime file) (95 # 100) = Some blob
      ∧ readAsDataURL blob = Dom.ReadString dataUrl
      ∧ size_width size = Dom.naturalWidth img
      ∧ size_height size = Dom.naturalHeight img)
  ∧ cleanedImageUrl (handleCleanMetadata s) = Some dataUrl
  ∧ cleanedImageSize (handleCleanMetadata s) = Some size
  ∧ processingState (handleCleanMetadata s) = done
  ∧ (targetMime file = "image/png" ↔ Dom.type file = "image/png")
  ∧ (Dom.type file ≠ "image/png" → targetMime file = "image/jpeg").
Proof.
  intros Hsel Hok.
  rewrite (handleCleanMetadata_selected s file Hsel).
  unfold handleCleanMetadata_resume. rewrite Hok. simpl.
  split; [| repeat split; auto using targetMime_jpeg; apply targetMime_png].
  destruct (cleanAttempt_normal _ _ _ Hok) as (img & blob & Hi & _ & Hb & Hr & ->).
  exists img, blob. by repeat split.
Qed.

(** The state a failed attempt leaves: the state it started from, with the
    generic message and back to idle. *)
Lemma handleCleanMetadata_throw s file e :
  selectedFile s = Some file →
  cleanAttempt file = Throw e →
  handleCleanMetadata s =
  {| selectedFile := selectedFile s; imagePreview := imagePreview s;
     metadata := metadata s; processingState := idle;
     error := Some (formatMessage "Failed to clean metadata. Please try again.");
     cleanedImageUrl := cleanedImageUrl s;
     cleanedImageSize := cleanedImageSize s |}.
Proof.
  intros Hsel Hthrow.
  rewrite (handleCleanMetadata_selected s file Hsel).
  unfold handleCleanMetadata_resume. by rewrite Hthrow.
Qed.

Lemma decode_failure_throws file :
  image_load file = None → ∃ e, cleanAttempt file = Throw e.
Proof. unfold cleanAttempt. intros ->. by eexists. Qed.

Lemma surface_failure_throws file img :
  image_load file = Some img →
  getContext2d (Dom.createCanvas (Dom.naturalWidth img) (Dom.naturalHeight img)) = false →
  ∃ e, cleanAttempt file = Throw e.
Proof. unfold cleanAttempt. intros -> Hctx. simpl. rewrite Hctx. by eexists. Qed.

Lemma serialization_failure_throws file img :
  image_load file = Some img →
  getContext2d (Dom.createCanvas (Dom.naturalWidth img) (Dom.naturalHeight img)) = true →
  toBlob (drawnCanvas img) (targetMime file) quality = None →
  ∃ e, cleanAttempt file = Throw e.
Proof.
  unfold cleanAttempt, drawnCanvas. intros -> Hctx Hblob. simpl.
  rewrite Hctx. simpl. rewrite Hblob. by eexists.
Qed.

(** C7.  A clean attempt that fails, at decode, at the acquisition of the
    drawing surface, at serialization, or anywhere else in the [try] block,
    leaves the state it started from except that the error is the one
    generic message and the processing state is idle: no cleaned image and
    no dimensions are stored by it. *)
Theorem clean_failure_generic (s : AppState) (file : Dom.File) :
  selectedFile s = Some file →
  (image_load file = None
   ∨ (∃ img, image_load file = Some img
        ∧ getContext2d (Dom.createCanvas (Dom.naturalWidth img)
                          (Dom.naturalHeight img)) = false)
   ∨ (∃ img, image_load file = Some img
        ∧ getContext2d (Dom.createCanvas (Dom.naturalWidth img)
                          (Dom.naturalHeight img)) = true
        ∧ toBlob (drawnCanvas img) (targetMime file) quality = None)
   ∨ (∃ e, cleanAttempt file = Throw e)) →
  handleCleanMetadata s =
  {| selectedFile := selectedFile s; imagePreview := imagePreview s;
     metadata := metadata s; processingState := idle;
     error := Some (formatMessage "Failed to clean metadata. Please try again.");
     cleanedImageUrl := cleanedImageUrl s;
     cleanedImageSize := cleanedImageSize s |}.
Proof.
  intros Hsel Hfail.
  assert (∃ e, cleanAttempt file = Throw e) as [e He].
  { destruct Hfail as [Hdec | [(img & Hi & Hctx) | [(img & Hi & Hctx & Hb) | Hany]]].
    - by apply decode_failure_throws.
    - by eapply surface_failure_throws.
    - by eapply serialization_failure_throws.
    - done. }
  by eapply handleCleanMetadata_throw.
Qed.

(** The clean step reads the file through the decoded image and the
    declared type only: two files that decode to the same image and
    declare the same type are cleaned to the same result. *)
Lemma clean_sees_only_decoded_image (file1 file2 : Dom.File) :
  image_load file1 = image_load file2 →
  Dom.type file1 = Dom.type file2 →
  cleanAttempt file1 = cleanAttempt file2.
Proof.
  intros Himg Htype. unfold cleanAttempt, targetMime.
  by rewrite Himg, Htype.
Qed.

End Cleaning.

Section CleaningWitness.
#[local] Existing Instance Demo.platform.

(** A PNG is cleaned to a PNG of its natural size, three by two. *)
Lemma clean_format_and_dimensions_witness :
  cleanedImageUrl (handleCleanMetadata (handleFileSelect [Demo.logo] initialState))
    = Some "data:image/png;rows=2"
  ∧ cleanedImageSize (handleCleanMetadata (handleFileSelect [Demo.logo] initialState))
    = Some {| size_width := 3; size_height := 2 |}.
Proof.
  destruct (clean_format_and_dimensions (H := Demo.platform)
              (handleFileSelect [Demo.logo] initialState) Demo.logo
              "data:image/png;rows=2" {| size_width := 3; size_height := 2 |}
              eq_refl ltac:(vm_compute; reflexivity)) as (_ & Hurl & Hsize & _).
  exact (conj Hurl Hsize).
Defined.

(** Ten bytes that are no image do not decode: the generic message, idle. *)
Lemma clean_failure_generic_witness :
  error (handleCleanMetadata (handleFileSelect [Demo.garbage] initialState))
    = Some "Failed to clean metadata. Please try again."
  ∧ processingState (handleCleanMetadata (handleFileSelect [Demo.garbage] initialState))
    = idle
  ∧ cleanedImageUrl (handleCleanMetadata (handleFileSelect [Demo.garbage] initialState))
    = None.
Proof.
  pose proof (clean_failure_generic (H := Demo.platform)
                (handleFileSelect [Demo.garbage] initialState) Demo.garbage
                eq_refl (or_introl eq_refl)) as Hfail.
  rewrite Hfail. repeat split.
Defined.

End CleaningWitness.

(** ** Guards *)

Section Guards.
Context `{Platform}.

Lemma handleClick_begin_absent s :
  cleanedImageUrl s = None ∨ cleanedImageSize s = None ∨ selectedFile s = None →
  handleClick_begin s = None.
Proof.
  unfold handleClick_begin.
  intros [Hu | [Hz | Hf]].
  - by rewrite Hu.
  - rewrite Hz. destruct (cleanedImageUrl s), (selectedFile s), supportedAddElement; done.
  - rewrite Hf. by destruct (cleanedImageUrl s).
Qed.

Lemma handleDragStart_absent s :
  cleanedImageUrl s = None ∨ cleanedImageSize s = None ∨ selectedFile s = None →
  handleDragStart s = (s, []).
Proof.
  unfold handleDragStart.
  intros [Hu | [Hz | Hf]].
  - by rewrite Hu.
  - rewrite Hz. destruct (cleanedImageUrl s), (selectedFile s); done.
  - rewrite Hf. by destruct (cleanedImageUrl s).
Qed.

Lemma world_unchanged w :
  {| app := app w; pending := (pending w ++ [])%list; calls := calls w |} = w.
Proof. destruct w. simpl. by rewrite app_nil_r. Qed.

(** C10.  Invoked with its precondition unmet, a handler changes nothing:
    clean with no file selected, click and drag when the cleaned image URL,
    its dimensions or the file is absent, and file selection with an empty
    list leave the state as it was, suspend nothing and call nothing in the
    host. *)
Theorem handlers_noop_when_precondition_unmet (w : World) :
  (selectedFile (app w) = None →
     handleCleanMetadata (app w) = app w ∧ invoke ClickCleanMetadata w = w)
  ∧ (cleanedImageUrl (app w) = None ∨ cleanedImageSize (app w) = None
     ∨ selectedFile (app w) = None →
     handleClick (app w) = (app w, []) ∧ invoke ClickImageCard w = w)
  ∧ (cleanedImageUrl (app w) = None ∨ cleanedImageSize (app w) = None
     ∨ selectedFile (app w) = None →
     handleDragStart (app w) = (app w, []) ∧ invoke DragImageCard w = w)
  ∧ handleFileSelect [] (app w) = app w
  ∧ invoke (DropAcceptedFiles []) w = w.
Proof.
  split; [| split; [| split; [| split]]].
  - intros Hf. unfold handleCleanMetadata, invoke, handleCleanMetadata_begin.
    rewrite Hf. split; [done | apply world_unchanged].
  - intros Habs. unfold handleClick, invoke.
    by rewrite (handleClick_begin_absent _ Habs).
  - intros Habs. unfold invoke. rewrite (handleDragStart_absent _ Habs).
    split; [done |]. destruct w. simpl. by rewrite app_nil_r.
  - reflexivity.
  - apply world_unchanged.
Qed.

End Guards.

Section GuardsWitness.
#[local] Existing Instance Demo.platform.

(** In the initial world nothing is selected and nothing is cleaned. *)
Lemma handlers_noop_when_precondition_unmet_witness :
  handleCleanMetadata initialState = initialState
  ∧ handleClick initialState = (initialState, [])
  ∧ handleDragStart initialState = (initialState, [])
  ∧ invoke (DropAcceptedFiles []) initialWorld = initialWorld.
Proof.
  destruct (handlers_noop_when_precondition_unmet (H := Demo.platform) initialWorld)
    as (Hclean & Hclick & Hdrag & _ & Hdrop).
  split; [exact (proj1 (Hclean eq_refl)) |].
  split; [exact (proj1 (Hclick (or_introl eq_refl))) |].
  split; [exact (proj1 (Hdrag (or_introl eq_refl))) | exact Hdrop].
Defined.

End GuardsWitness.

(** ** Invalidation on a new selection and on reset *)

Lemma handleReset_clears (s : AppState) : handleReset s = initialState.
Proof. reflexivity. Qed.

Section Invalidation.
Context `{Platform}.

(** The synchronous part of a file selection clears the record and the
    cleaned image's URL. *)
Lemma handleFileSelect_begin_clears file rest s :
  let s' := (handleFileSelect_begin (file :: rest) s).1 in
  metadata s' = None ∧ cleanedImageUrl s' = None ∧ error s' = None
  ∧ selectedFile s' = Some file ∧ processingState s' = reading.
Proof. by repeat split. Qed.

(** No part of [handleFileSelect] writes the cleaned image's dimensions. *)
Lemma handleFileSelect_keeps_cleanedImageSize files s :
  cleanedImageSize (handleFileSelect_begin files s).1 = cleanedImageSize s
  ∧ cleanedImageSize (handleFileSelect files s) = cleanedImageSize s
  ∧ (∀ file, cleanedImageSize (handleFileSelect_resume file s) = cleanedImageSize s).
Proof.
  unfold handleFileSelect, handleFileSelect_begin.
  destruct (head files); by repeat split.
Qed.

End Invalidation.

Section InvalidationRun.
#[local] Existing Instance Demo.platform.

(** C8, on the code.  A session in which [logo] is cleaned and [scan] is
    selected next: every event is one the rendered controls offer, and at
    the end [scan], two by one, is the selected file while the stored
    dimensions are still the three by two of [logo].  The same already at
    the level of the handler. *)
Theorem new_selection_keeps_old_dimensions :
  (∃ w, run (Demo.raceTrace ++
               [Settle 0; User (DropAcceptedFiles [Demo.scan]); Settle 0])
          initialWorld = Some w
        ∧ selectedFile (app w) = Some Demo.scan
        ∧ processingState (app w) = idle
        ∧ cleanedImageUrl (app w) = None
        ∧ cleanedImageSize (app w) = Some {| size_width := 3; size_height := 2 |}
        ∧ pending w = [])
  ∧ cleanedImageSize
      (handleFileSelect [Demo.scan]
         (handleCleanMetadata (handleFileSelect [Demo.logo] initialState)))
    = Some {| size_width := 3; size_height := 2 |}
  ∧ Dom.naturalWidth <$> image_load Demo.scan = Some 2%N
  ∧ Dom.naturalHeight <$> image_load Demo.scan = Some 1%N.
Proof.
  split; [| by vm_compute].
  eexists. split; [vm_compute; reflexivity |]. by vm_compute.
Qed.

End InvalidationRun.

(** ** Results that arrive late *)

Section LateResults.
Context `{Platform}.

(** While a file is selected and the state is "cleaning", the tree holds no
    enabled control. *)
Lemma nothing_offered_while_cleaning (s : AppState) (file : Dom.File) (u : UserEvent) :
  selectedFile s = Some file →
  processingState s = cleaning →
  offered (render s) u = false.
Proof.
  intros Hf Hp. unfold offered, render, renderActions. simpl.
  rewrite Hf, Hp. by destruct u.
Qed.

(** C9, amended.  The continuation of a clean makes no check: when the
    attempt succeeded it stores the data URL and the dimensions whatever
    file, if any, is selected by then.  What stands in for the check is the
    rendering: while a file is selected and the processing state is
    "cleaning", no file input, reset button, clean button or image card is
    offered, so no user event is accepted in such a state. *)
Theorem clean_result_stored_unchecked (file : Dom.File) (dataUrl : string) (size : Size) :
  cleanAttempt file = Normal (dataUrl, size) →
  (∀ s, handleCleanMetadata_resume file s =
        {| selectedFile := selectedFile s; imagePreview := imagePreview s;
           metadata := metadata s; processingState := done; error := error s;
           cleanedImageUrl := Some dataUrl; cleanedImageSize := Some size |})
  ∧ (∀ w selected u,
       selectedFile (app w) = Some selected →
       processingState (app w) = cleaning →
       step (User u) w = None).
Proof.
  intros Hok. split.
  - intros s. unfold handleCleanMetadata_resume. by rewrite Hok.
  - intros w selected u Hf Hp. simpl.
    by rewrite (nothing_offered_while_cleaning _ _ u Hf Hp).
Qed.

End LateResults.

Section LateResultsRun.
#[local] Existing Instance Demo.platform.

(** C9, as stated, fails.  At the level of the handlers: the clean of
    [logo] suspends, the session is reset, the clean settles and its result
    is stored although no file is selected.  In a whole session, with every
    event one the rendered controls offer: the clean of [logo] is in flight
    when the session is reset and [scan] is selected; when the clean
    settles its result becomes the cleaned image shown for [scan]. *)
Lemma stale_clean_counterexample :
  (let s := handleFileSelect [Demo.logo] initialState in
   let s' := handleCleanMetadata_resume Demo.logo
               (handleReset (handleCleanMetadata_begin s).1) in
   (handleCleanMetadata_begin s).2 = Some Demo.logo
   ∧ selectedFile s' = None
   ∧ cleanedImageUrl s' = Some "data:image/png;rows=2")
  ∧ (∃ w, run (Demo.raceTrace ++
                 [User (DropAcceptedFiles [Demo.scan]); Settle 1; Settle 0])
            initialWorld = Some w
          ∧ selectedFile (app w) = Some Demo.scan
          ∧ processingState (app w) = done
          ∧ cleanedImageUrl (app w) = Some "data:image/png;rows=2"
          ∧ cleanedImageSize (app w) = Some {| size_width := 3; size_height := 2 |})
  ∧ cleanAttempt Demo.logo
    = Normal ("data:image/png;rows=2", {| size_width := 3; size_height := 2 |})
  ∧ cleanAttempt Demo.scan
    = Normal ("data:image/jpeg;rows=1", {| size_width := 2; size_height := 1 |})
  ∧ Demo.scan ≠ Demo.logo.
Proof.
  split; [by vm_compute |].
  split; [eexists; split; [vm_compute; reflexivity | by vm_compute] |].
  split; [by vm_compute |]. split; [by vm_compute | discriminate].
Qed.

(** The clean of [logo] stores its result over any state; and once
    [logo] is selected and being cleaned, no control is offered. *)
Lemma clean_result_stored_unchecked_witness :
  cleanedImageUrl (handleCleanMetadata_resume Demo.logo initialState)
    = Some "data:image/png;rows=2"
  ∧ step (User ClickReset)
      {| app := (handleCleanMetadata_begin
                   (handleFileSelect [Demo.logo] initialState)).1;
         pending := [Cleaning Demo.logo]; calls := [] |} = None.
Proof.
  destruct (clean_result_stored_unchecked (H := Demo.platform) Demo.logo
              "data:image/png;rows=2" {| size_width := 3; size_height := 2 |}
              ltac:(vm_compute; reflexivity)) as [Hstore Hgate].
  split.
  - rewrite (Hstore initialState). reflexivity.
  - apply (Hgate _ Demo.logo ClickReset); reflexivity.
Defined.

End LateResultsRun.

(** * Further properties of the handlers *)

(** ** Adding the cleaned image to the design *)

Section Adding.
Context `{Platform}.

Lemma size_eta (size : Size) :
  {| size_width := size_width size; size_height := size_height size |} = size.
Proof. by destruct size. Qed.

Lemma handleClick_begin_some s job :
  handleClick_begin s = Some job →
  ∃ u file size,
    cleanedImageUrl s = Some u ∧ selectedFile s = Some file
    ∧ cleanedImageSize s = Some size ∧ string_truthy u = true
    ∧ supportedAddElement = Some (job_addElement job)
    ∧ job_request job = uploadRequest file u size.
Proof.
  unfold handleClick_begin.
  destruct (cleanedImageUrl s) as [u |]; [| done].
  destruct (selectedFile s) as [file |]; [| done].
  destruct supportedAddElement as [fn |]; [| done].
  destruct (cleanedImageSize s) as [size |]; [| done].
  destruct (string_truthy u) eqn:Hu; [| done].
  intros [= <-]. by exists u, file, size.
Qed.

(** X1.  Clean, then click: the request handed to [upload] carries the data
    URL of the blob that [toBlob] produced for the very type the request
    declares, the same URL as thumbnail, and the image's natural size. *)
Theorem clean_then_click_uploads_encoded
    (s : AppState) (file : Dom.File) (dataUrl : string) (size : Size)
    (fn : Host.AddElementFn) :
  selectedFile s = Some file →
  cleanAttempt file = Normal (dataUrl, size) →
  string_truthy dataUrl = true →
  supportedAddElement = Some fn →
  ∃ job img blob,
    handleClick_begin (handleCleanMetadata s) = Some job
    ∧ job_addElement job = fn
    ∧ image_load file = Some img
    ∧ toBlob (drawnCanvas img) (Host.mimeType (job_request job)) quality = Some blob
    ∧ readAsDataURL blob = Dom.ReadString (Host.url (job_request job))
    ∧ Host.thumbnailUrl (job_request job) = Host.url (job_request job)
    ∧ Host.upload_width (job_request job) = Dom.naturalWidth img
    ∧ Host.upload_height (job_request job) = Dom.naturalHeight img.
Proof.
  intros Hsel Hok Hu Hfn.
  destruct (cleanAttempt_normal _ _ _ Hok) as (img & blob & Hi & _ & Hb & Hr & ->).
  exists {| job_request :=
              uploadRequest file dataUrl
                {| size_width := Dom.naturalWidth img;
                   size_height := Dom.naturalHeight img |};
            job_addElement := fn |}, img, blob.
  split; [| by repeat split].
  rewrite (handleCleanMetadata_selected s file Hsel).
  unfold handleCleanMetadata_resume. rewrite Hok. simpl.
  unfold handleClick_begin. simpl. by rewrite Hsel, Hfn, Hu.
Qed.

(** X2.  [handleClick] writes no state but the error, and that only when
    [upload] or the add function throws; when both succeed the state is what
    it was. *)
Theorem handleClick_touches_error_only (s : AppState) :
  selectedFile (handleClick s).1 = selectedFile s
  ∧ imagePreview (handleClick s).1 = imagePreview s
  ∧ metadata (handleClick s).1 = metadata s
  ∧ processingState (handleClick s).1 = processingState s
  ∧ cleanedImageUrl (handleClick s).1 = cleanedImageUrl s
  ∧ cleanedImageSize (handleClick s).1 = cleanedImageSize s
  ∧ (∀ job, handleClick_begin s = Some job →
       (∀ e, addAttempt job = Throw e →
          error (handleClick s).1
          = Some (formatMessage "Failed to add image to design. Please try again."))
       ∧ (addAttempt job = Normal () → (handleClick s).1 = s)).
Proof.
  unfold handleClick, handleClick_resume.
  destruct (handleClick_begin s) as [job |]; [| by repeat split].
  destruct (addAttempt job) as [[] | e] eqn:Hadd; simpl.
  - split_and!; try done.
    intros job' [= <-]. split; [| done]. intros e He. congruence.
  - split_and!; try done.
    intros job' [= <-]. split; [done |]. intros He. congruence.
Qed.

(** X3.  Past its guard [handleClick] always calls [upload], and calls the add
    function only when the upload resolved, with the reference it resolved
    to. *)
Theorem addElement_only_after_upload (s : AppState) (job : AddJob) :
  handleClick_begin s = Some job →
  (∀ e, upload (job_request job) = Throw e →
     (handleClick s).2 = [Host.Upload (job_request job)]
     ∧ error (handleClick s).1
       = Some (formatMessage "Failed to add image to design. Please try again."))
  ∧ (∀ asset, upload (job_request job) = Normal asset →
       (handleClick s).2 =
       [Host.Upload (job_request job);
        Host.Add (job_addElement job)
          {| Host.element_type := "image"; Host.ref := asset;
             Host.altText :=
               {| Host.text := formatMessage "Image with metadata removed";
                  Host.decorative := false |} |}]).
Proof.
  intros Hjob. unfold handleClick, handleClick_resume, addAttempt, addCall, uploadCall.
  rewrite Hjob. split.
  - intros e He. by rewrite He.
  - intros asset Ha. by rewrite Ha.
Qed.

(** X4.  The add function is the first supported of at-point and at-cursor;
    when the host supports neither, a click does nothing, even with a cleaned
    image stored. *)
Theorem add_capability_selection :
  (isSupported (Host.AddElement Host.addElementAtPoint) = true →
     supportedAddElement = Some Host.addElementAtPoint)
  ∧ (isSupported (Host.AddElement Host.addElementAtPoint) = false →
     isSupported (Host.AddElement Host.addElementAtCursor) = true →
     supportedAddElement = Some Host.addElementAtCursor)
  ∧ (isSupported (Host.AddElement Host.addElementAtPoint) = false →
     isSupported (Host.AddElement Host.addElementAtCursor) = false →
     ∀ s, handleClick s = (s, [])).
Proof.
  unfold supportedAddElement. simpl. split; [| split].
  - by intros ->.
  - by intros -> ->.
  - intros Hp Hc s. unfold handleClick, handleClick_begin, supportedAddElement.
    simpl. rewrite Hp, Hc.
    by destruct (cleanedImageUrl s), (selectedFile s).
Qed.

(** X5.  [handleDragStart] never changes the state and makes at most one
    call, a drag start.  Past its guard it starts the drag at point when the
    host supports that, at cursor when the host supports that and not at
    point, with the cleaned image's URL as preview, a preview of 100 by 100
    and the stored dimensions as full size; it makes no call when the host
    supports neither. *)
Theorem handleDragStart_calls (s : AppState) :
  (handleDragStart s).1 = s
  ∧ (length (handleDragStart s).2 ≤ 1)%nat
  ∧ (∀ c, c ∈ (handleDragStart s).2 →
       ∃ fn cfg, c = Host.Drag fn cfg
         ∧ isSupported (Host.StartDrag fn) = true
         ∧ (fn = Host.startDragToCursor →
            isSupported (Host.StartDrag Host.startDragToPoint) = false)
         ∧ Host.previewSize cfg = {| size_width := 100; size_height := 100 |})
  ∧ (isSupported (Host.StartDrag Host.startDragToPoint) = false →
     isSupported (Host.StartDrag Host.startDragToCursor) = false →
     (handleDragStart s).2 = [])
  ∧ (∀ u file size,
       cleanedImageUrl s = Some u → string_truthy u = true →
       selectedFile s = Some file → cleanedImageSize s = Some size →
       (isSupported (Host.StartDrag Host.startDragToPoint) = true →
        (handleDragStart s).2 =
        [Host.Drag Host.startDragToPoint
           {| Host.drag_type := "image";
              Host.resolveImageRef := uploadRequest file u size;
              Host.previewUrl := u;
              Host.previewSize := {| size_width := 100; size_height := 100 |};
              Host.fullSize := size |}])
       ∧ (isSupported (Host.StartDrag Host.startDragToPoint) = false →
          isSupported (Host.StartDrag Host.startDragToCursor) = true →
          (handleDragStart s).2 =
          [Host.Drag Host.startDragToCursor
             {| Host.drag_type := "image";
                Host.resolveImageRef := uploadRequest file u size;
                Host.previewUrl := u;
                Host.previewSize := {| size_width := 100; size_height := 100 |};
                Host.fullSize := size |}])).
Proof.
  assert (Hstarted : ∀ u file size,
            cleanedImageUrl s = Some u → string_truthy u = true →
            selectedFile s = Some file → cleanedImageSize s = Some size →
            (isSupported (Host.StartDrag Host.startDragToPoint) = true →
             (handleDragStart s).2 =
             [Host.Drag Host.startDragToPoint
                {| Host.drag_type := "image";
                   Host.resolveImageRef := uploadRequest file u size;
                   Host.previewUrl := u;
                   Host.previewSize := {| size_width := 100; size_height := 100 |};
                   Host.fullSize := size |}])
            ∧ (isSupported (Host.StartDrag Host.startDragToPoint) = false →
               isSupported (Host.StartDrag Host.startDragToCursor) = true →
               (handleDragStart s).2 =
               [Host.Drag Host.startDragToCursor
                  {| Host.drag_type := "image";
                     Host.resolveImageRef := uploadRequest file u size;
                     Host.previewUrl := u;
                     Host.previewSize := {| size_width := 100; size_height := 100 |};
                     Host.fullSize := size |}])).
  { intros u file size Hu Ht Hf Hz. unfold handleDragStart.
    rewrite Hu, Hf, Hz, Ht. rewrite size_eta. simpl.
    split; [by intros -> | by intros -> ->]. }
  split_and!; [| | | | exact Hstarted]; clear Hstarted.
  all: unfold handleDragStart.
  all: destruct (cleanedImageUrl s) as [u |];
    [| first [done | simpl; lia | by intros c Hc; inversion Hc]].
  all: destruct (selectedFile s) as [file |];
    [| first [done | simpl; lia | by intros c Hc; inversion Hc]].
  all: destruct (cleanedImageSize s) as [size |];
    [| first [done | simpl; lia | by intros c Hc; inversion Hc]].
  all: destruct (string_truthy u);
    [| first [done | simpl; lia | by intros c Hc; inversion Hc]].
  all: simpl.
  all: destruct (isSupported (Host.StartDrag Host.startDragToPoint)) eqn:Hp;
    [| destruct (isSupported (Host.StartDrag Host.startDragToCursor)) eqn:Hc ].
  all: try done.
  all: try (simpl; lia).
  all: intros c Hin.
  - apply list_elem_of_singleton in Hin as ->. by eexists _, _.
  - apply list_elem_of_singleton in Hin as ->. by eexists _, _.
  - inversion Hin.
Qed.

(** X6.  What a drag will upload is what a click uploads: from one state the
    closure handed to the host requests the same upload as [handleClick],
    previews the same URL and announces the request's dimensions as the full
    size. *)
Theorem drag_uploads_what_click_uploads
    (s : AppState) (job : AddJob) (fn : Host.StartDragFn) (cfg : Host.ImageDragConfig) :
  handleClick_begin s = Some job →
  Host.Drag fn cfg ∈ (handleDragStart s).2 →
  Host.resolveImageRef cfg = job_request job
  ∧ Host.previewUrl cfg = Host.url (job_request job)
  ∧ size_width (Host.fullSize cfg) = Host.upload_width (job_request job)
  ∧ size_height (Host.fullSize cfg) = Host.upload_height (job_request job).
Proof.
  intros Hjob Hin.
  destruct (handleClick_begin_some _ _ Hjob)
    as (u & file & size & Hu & Hf & Hz & Ht & _ & ->).
  unfold handleDragStart in Hin. rewrite Hu, Hf, Hz, Ht in Hin. simpl in Hin.
  destruct (isSupported (Host.StartDrag Host.startDragToPoint));
    [| destruct (isSupported (Host.StartDrag Host.startDragToCursor)) ].
  - apply list_elem_of_singleton in Hin. by injection Hin as _ ->.
  - apply list_elem_of_singleton in Hin. by injection Hin as _ ->.
  - inversion Hin.
Qed.

End Adding.

Section AddingWitness.
#[local] Existing Instance Demo.platform.

Lemma clean_then_click_uploads_encoded_witness :
  ∃ job, handleClick_begin
           (handleCleanMetadata (handleFileSelect [Demo.logo] initialState)) = Some job
         ∧ Host.mimeType (job_request job) = "image/png"
         ∧ Host.upload_width (job_request job) = 3%N.
Proof.
  destruct (clean_then_click_uploads_encoded (H := Demo.platform)
              (handleFileSelect [Demo.logo] initialState) Demo.logo
              "data:image/png;rows=2" {| size_width := 3; size_height := 2 |}
              Host.addElementAtPoint eq_refl ltac:(vm_compute; reflexivity)
              eq_refl eq_refl)
    as (job & img & blob & Hjob & _ & Himg & _ & _ & _ & Hw & _).
  exists job. split; [exact Hjob |].
  injection Himg as <-. split; [| exact Hw].
  vm_compute in Hjob. by injection Hjob as <-.
Defined.

Lemma handleClick_touches_error_only_witness :
  (handleClick (handleCleanMetadata (handleFileSelect [Demo.logo] initialState))).1
  = handleCleanMetadata (handleFileSelect [Demo.logo] initialState).
Proof.
  destruct (handleClick_touches_error_only (H := Demo.platform)
              (handleCleanMetadata (handleFileSelect [Demo.logo] initialState)))
    as (_ & _ & _ & _ & _ & _ & Hjob).
  exact (proj2 (Hjob _ ltac:(vm_compute; reflexivity)) ltac:(vm_compute; reflexivity)).
Defined.

Lemma addElement_only_after_upload_witness :
  length (handleClick
            (handleCleanMetadata (handleFileSelect [Demo.logo] initialState))).2 = 2%nat.
Proof.
  set (s := handleCleanMetadata (handleFileSelect [Demo.logo] initialState)).
  edestruct (addElement_only_after_upload (H := Demo.platform) s) as [_ Hok];
    [vm_compute; reflexivity |].
  by rewrite (Hok {| Host.ref_id := 1 |} ltac:(vm_compute; reflexivity)).
Defined.

Lemma add_capability_selection_witness :
  supportedAddElement = Some Host.addElementAtPoint.
Proof.
  exact (proj1 (add_capability_selection (H := Demo.platform)) eq_refl).
Defined.

Lemma handleDragStart_calls_witness :
  ∃ cfg,
    (handleDragStart
       (handleCleanMetadata (handleFileSelect [Demo.logo] initialState))).2
    = [Host.Drag Host.startDragToPoint cfg]
    ∧ Host.previewUrl cfg = "data:image/png;rows=2"
    ∧ Host.fullSize cfg = {| size_width := 3; size_height := 2 |}.
Proof.
  set (s := handleCleanMetadata (handleFileSelect [Demo.logo] initialState)).
  destruct (handleDragStart_calls (H := Demo.platform) s) as (_ & _ & _ & _ & Hstart).
  destruct (Hstart "data:image/png;rows=2" Demo.logo
              {| size_width := 3; size_height := 2 |}
              ltac:(vm_compute; reflexivity) eq_refl
              eq_refl ltac:(vm_compute; reflexivity)) as [Hpoint _].
  eexists. split; [exact (Hpoint eq_refl) |]. by split.
Defined.

Lemma drag_uploads_what_click_uploads_witness :
  ∃ cfg, Host.mimeType (Host.resolveImageRef cfg) = "image/png"
         ∧ Host.previewUrl cfg = "data:image/png;rows=2".
Proof.
  set (s := handleCleanMetadata (handleFileSelect [Demo.logo] initialState)).
  edestruct (drag_uploads_what_click_uploads (H := Demo.platform) s)
    as (Hreq & Hurl & _);
    [vm_compute; reflexivity | vm_compute; apply list_elem_of_here |].
  eexists. split; [rewrite Hreq | rewrite Hurl]; reflexivity.
Defined.

End AddingWitness.

(** ** What is shown *)

Section Shown.
Context `{Platform}.





(** X9.  For the records [handleFileSelect] stores, "No metadata found" is
    shown exactly when the parser did not resolve to a tag object: it
    rejected, or resolved to [null].  A failed parse and an image without
    metadata look the same. *)
Theorem no_metadata_alert_iff_no_tags (file : Dom.File) :
  noMetadataFound (extract file) = true ↔
  ¬ ∃ d, exifr_parse file parseOptions = Exifr.Resolves (Some d).
Proof.
  unfold extract, extractAttempt.
  destruct (exifr_parse file parseOptions) as [e | [d |]]; simpl.
  - split; [| done]. intros _ [d Hd]. discriminate.
  - split; [discriminate |]. intros Hno. exfalso. apply Hno. by exists d.
  - split; [| done]. intros _ [d Hd]. discriminate.
Qed.

Lemma is_own_false {T} (p : prop T) : Nat.b2n (is_own p) = 0%nat → p = Missing.
Proof. by destruct p. Qed.

(** X10.  Which objects are reported as "No metadata found": those with none
    of the twelve named keys as an own key, and [raw] either missing or
    holding an object; a [raw] key holding [undefined] is reported as
    detected. *)
Theorem noMetadataFound_keys (m : MetadataInfo) :
  noMetadataFound m = true ↔
  (latitude m = Missing ∧ longitude m = Missing ∧ dateTime m = Missing
   ∧ dateTimeOriginal m = Missing ∧ make m = Missing ∧ model m = Missing
   ∧ software m = Missing ∧ imageWidth m = Missing ∧ imageHeight m = Missing
   ∧ orientation m = Missing ∧ artist m = Missing ∧ copyright m = Missing)
  ∧ raw m ≠ Own None.
Proof.
  unfold noMetadataFound, object_truthy. split.
  - intros Hshown.
    assert (Hnamed : (keysLength m - Nat.b2n (is_own (raw m)) = 0)%nat
                     ∧ raw m ≠ Own None).
    { apply orb_true_iff in Hshown as [H0 | H1].
      - apply Nat.eqb_eq in H0. split; [lia |].
        intros Hraw. unfold keysLength in H0. rewrite Hraw in H0. simpl in H0. lia.
      - apply andb_true_iff in H1 as [H1 Hraw]. apply Nat.eqb_eq in H1.
        destruct (raw m) as [| [d |]] eqn:Hr; try done.
        split; [simpl; lia | discriminate]. }
    destruct Hnamed as [Hnamed Hraw]. split; [| done].
    unfold keysLength in Hnamed.
    split_and!; apply is_own_false; lia.
  - destruct m as [? ? ? ? ? ? ? ? ? ? ? ? r]; simpl.
    intros [(-> & -> & -> & -> & -> & -> & -> & -> & -> & -> & -> & ->) Hraw].
    unfold keysLength; simpl. by destruct r as [| [d |]].
Qed.

(** X11.  The error a failed attempt throws names the first stage that
    failed, and there are five of them: the image did not load, no drawing
    context, no blob, a read error, or a read result that is not a string. *)
Theorem cleanAttempt_throw_cases (file : Dom.File) (e : thrown) :
  cleanAttempt file = Throw e →
  (image_load file = None ∧ e = Error (formatMessage "Failed to load image"))
  ∨ ∃ img, image_load file = Some img ∧
      ((getContext2d (Dom.createCanvas (Dom.naturalWidth img) (Dom.naturalHeight img))
          = false
        ∧ e = Error (formatMessage "Failed to get canvas context"))
       ∨ (getContext2d (Dom.createCanvas (Dom.naturalWidth img) (Dom.naturalHeight img))
            = true ∧
          ((toBlob (drawnCanvas img) (targetMime file) quality = None
            ∧ e = Error (formatMessage "Failed to create cleaned image"))
           ∨ ∃ blob, toBlob (drawnCanvas img) (targetMime file) quality = Some blob ∧
               ((readAsDataURL blob = Dom.ReadFails ∧ e = DOMException)
                ∨ (readAsDataURL blob = Dom.ReadOther
                   ∧ e = Error (formatMessage "Failed to read image data")))))).
Proof.
  unfold cleanAttempt, drawnCanvas.
  destruct (image_load file) as [img |]; simpl; [| intros [= <-]; by left].
  intros Hthrow. right. exists img. split; [done |].
  destruct (getContext2d _); simpl in Hthrow; [| injection Hthrow as <-; by left].
  right. split; [done |].
  destruct (toBlob _ _ _) as [blob |]; simpl in Hthrow;
    [| injection Hthrow as <-; by left].
  right. exists blob. split; [done |].
  destruct (readAsDataURL blob); simpl in Hthrow; try discriminate;
    injection Hthrow as <-; [by left | by right].
Qed.

(** X12.  Once a file selection has run to its end the user can always go on:
    the metadata section is rendered, the clean button is enabled and reset
    is offered, whatever the parser did; the file input and the image card
    are not there. *)
Theorem after_selection_clean_offered
    (file : Dom.File) (rest : list Dom.File) (s : AppState) :
  let v := render (handleFileSelect (file :: rest) s) in
  offered v ClickCleanMetadata = true
  ∧ offered v ClickReset = true
  ∧ offered v ClickImageCard = false
  ∧ offered v DragImageCard = false
  ∧ (∀ files, offered v (DropAcceptedFiles files) = false)
  ∧ errorAlert v = None
  ∧ ∃ fv, content v = Selected fv
          ∧ readingIndicator fv = false
          ∧ metadataSection fv =
            Some {| riskAlert := riskFieldDefined (extract file);
                    panel := metadataPanel (extract file) |}.
Proof.
  rewrite handleFileSelect_cons. unfold render, offered. simpl.
  split_and!; try done. eexists. by split_and!.
Qed.

(** X13.  After a failed clean the user can try again or choose another
    image: with a record present, the clean button is enabled and reset is
    offered, and the message, unless empty, is shown in the error alert. *)
Theorem after_failed_clean_retry_offered
    (s : AppState) (file : Dom.File) (e : thrown) :
  selectedFile s = Some file →
  is_Some (metadata s) →
  cleanAttempt file = Throw e →
  let v := render (handleCleanMetadata s) in
  offered v ClickCleanMetadata = true
  ∧ offered v ClickReset = true
  ∧ offered v ClickImageCard = false
  ∧ (string_truthy (formatMessage "Failed to clean metadata. Please try again.") = true →
     errorAlert v = Some (formatMessage "Failed to clean metadata. Please try again.")).
Proof.
  intros Hsel [m Hm] Hthrow.
  rewrite (handleCleanMetadata_throw s file e Hsel Hthrow).
  unfold render, offered, renderActions. simpl. rewrite Hsel, Hm. simpl.
  split_and!; try done. by intros ->.
Qed.

(** X14.  After a successful clean the clean button is gone, reset is
    offered, and the image card can be clicked and dragged exactly when the
    data URL is not the empty string; no error is shown. *)
Theorem after_clean_card_offered
    (s : AppState) (file : Dom.File) (dataUrl : string) (size : Size) :
  selectedFile s = Some file →
  cleanAttempt file = Normal (dataUrl, size) →
  let v := render (handleCleanMetadata s) in
  offered v ClickCleanMetadata = false
  ∧ offered v ClickReset = true
  ∧ offered v ClickImageCard = string_truthy dataUrl
  ∧ offered v DragImageCard = string_truthy dataUrl
  ∧ errorAlert v = None.
Proof.
  intros Hsel Hok.
  rewrite (handleCleanMetadata_selected s file Hsel).
  unfold handleCleanMetadata_resume. rewrite Hok.
  unfold render, offered, renderActions. simpl. rewrite Hsel. simpl.
  by destruct (string_truthy dataUrl).
Qed.

End Shown.

Section ShownWitness.
#[local] Existing Instance Demo.platform.



(** The parser rejects [garbage] and resolves [bare] to a tag object. *)
Lemma no_metadata_alert_iff_no_tags_witness :
  noMetadataFound (extract Demo.garbage) = true
  ∧ noMetadataFound (extract Demo.bare) ≠ true.
Proof.
  split.
  - apply (no_metadata_alert_iff_no_tags (H := Demo.platform) Demo.garbage).
    intros [d Hd]. discriminate.
  - intros Hshown.
    apply (no_metadata_alert_iff_no_tags (H := Demo.platform) Demo.bare) in Hshown.
    apply Hshown. by exists Exifr.no_tags.
Defined.

Lemma noMetadataFound_keys_witness :
  noMetadataFound emptyObject = true.
Proof. apply noMetadataFound_keys. by split_and!. Defined.

Lemma cleanAttempt_throw_cases_witness :
  image_load Demo.garbage = None.
Proof.
  destruct (cleanAttempt_throw_cases (H := Demo.platform) Demo.garbage
              (Error "Failed to load image") eq_refl)
    as [[Hload _] | (img & Hload & _)]; [exact Hload | discriminate].
Defined.

Lemma after_failed_clean_retry_offered_witness :
  offered (render (handleCleanMetadata (handleFileSelect [Demo.garbage] initialState)))
    ClickCleanMetadata = true.
Proof.
  set (s := handleFileSelect [Demo.garbage] initialState).
  edestruct (after_failed_clean_retry_offered (H := Demo.platform) s Demo.garbage)
    as (Hclean & _); [reflexivity | by eexists | reflexivity | exact Hclean].
Defined.

Lemma after_clean_card_offered_witness :
  offered (render (handleCleanMetadata (handleFileSelect [Demo.logo] initialState)))
    ClickImageCard = true.
Proof.
  set (s := handleFileSelect [Demo.logo] initialState).
  edestruct (after_clean_card_offered (H := Demo.platform) s Demo.logo)
    as (_ & _ & Hcard & _); [reflexivity | vm_compute; reflexivity |].
  rewrite Hcard. reflexivity.
Defined.

End ShownWitness.

(** ** Whole sessions *)

Section Sessions.
Context `{Platform}.

Lemma run_preserves (P : World → Prop) :
  (∀ e w w', P w → step e w = Some w' → P w') →
  ∀ es w w', P w → run es w = Some w' → P w'.
Proof.
  intros Hstep es. induction es as [| e es IH]; simpl; intros w w' Hw Hrun.
  - by injection Hrun as <-.
  - destruct (step e w) as [w1 |] eqn:He; [| done]. eauto.
Qed.

Lemma run_app es1 es2 w :
  run (es1 ++ es2) w = run es1 w ≫= run es2.
Proof.
  revert w. induction es1 as [| e es1 IH]; simpl; intros w; [done |].
  by destruct (step e w).
Qed.

Lemma elem_of_delete_other {A} (l : list A) (n : nat) (x y : A) :
  l !! n = Some y → x ∈ l → x ≠ y → x ∈ delete n l.
Proof.
  revert n. induction l as [| a l IH]; intros [| n]; simpl; try done.
  - intros [= ->] [-> | Hin]%elem_of_cons Hne; done.
  - intros Hn [-> | Hin]%elem_of_cons Hne.
    + apply list_elem_of_here.
    + apply list_elem_of_further. eauto.
Qed.

Lemma targetMime_cases (file : Dom.File) :
  targetMime file = "image/png" ∨ targetMime file = "image/jpeg".
Proof. unfold targetMime. destruct (String.eqb _ _); auto. Qed.

Lemma reencoded_uploadRequest file u size :
  cleanResult u size → reencoded (uploadRequest file u size).
Proof.
  intros Hres. unfold reencoded. simpl. rewrite size_eta.
  split_and!; [done | done | apply targetMime_cases].
Qed.

Lemma handleDragStart_reencoded (s : AppState) :
  (∀ u, cleanedImageUrl s = Some u →
        ∃ size, cleanedImageSize s = Some size ∧ cleanResult u size) →
  (handleDragStart s).1 = s ∧ Forall callReencoded (handleDragStart s).2.
Proof.
  intros Hc. unfold handleDragStart.
  destruct (cleanedImageUrl s) as [u |]; [| by split].
  destruct (Hc u eq_refl) as (size & -> & Hres).
  destruct (selectedFile s) as [file |]; [| by split].
  destruct (string_truthy u); [| by split]. simpl.
  assert (Hcall : ∀ fn, callReencoded
            (Host.Drag fn
               {| Host.drag_type := "image";
                  Host.resolveImageRef := uploadRequest file u size;
                  Host.previewUrl := u;
                  Host.previewSize := {| size_width := 100; size_height := 100 |};
                  Host.fullSize :=
                    {| size_width := size_width size;
                       size_height := size_height size |} |})).
  { intros fn. simpl. split; [| done]. by apply reencoded_uploadRequest. }
  split; [done |].
  destruct (isSupported (Host.StartDrag Host.startDragToPoint));
    [| destruct (isSupported (Host.StartDrag Host.startDragToCursor))].
  - apply Forall_cons. split; [apply Hcall | apply Forall_nil_2].
  - apply Forall_cons. split; [apply Hcall | apply Forall_nil_2].
  - apply Forall_nil_2.
Qed.

Lemma consistent_initial : consistent initialWorld.
Proof.
  split; simpl; try done.
  - intros job Hin. inversion Hin.
Qed.

Lemma consistent_invoke (u : UserEvent) (w : World) :
  consistent w → consistent (invoke u w).
Proof.
  intros Hw. pose proof Hw as [Hp Hc Hd Hr Hcl Hj Hcalls].
  destruct u as [files | | | |]; simpl.
  - destruct files as [| file rest]; simpl; [by rewrite world_unchanged |].
    split; simpl; try done.
    + intros _. split_and!; try done. exists file. split; [done |].
      apply elem_of_app. right. apply list_elem_of_here.
    + intros job [Hin | Hin%list_elem_of_singleton]%elem_of_app; [auto | done].
  - unfold handleCleanMetadata_begin.
    destruct (selectedFile (app w)) as [file |] eqn:Hsel;
      [| by rewrite world_unchanged].
    split; simpl; rewrite ?Hsel; try done.
    + intros _. exists file. split; [done |].
      apply elem_of_app. right. apply list_elem_of_here.
    + intros job [Hin | Hin%list_elem_of_singleton]%elem_of_app; [auto | done].
  - split; simpl; try done.
  - destruct (handleClick_begin (app w)) as [job |] eqn:Hjob; [| done].
    assert (Hre : reencoded (job_request job)).
    { destruct (handleClick_begin_some _ _ Hjob)
        as (u & file & size & Hu & _ & Hz & _ & _ & ->).
      destruct (Hc u Hu) as (size' & Hz' & Hres).
      apply reencoded_uploadRequest. congruence. }
    split; simpl; try done.
    + intros Hread. destruct (Hr Hread) as (Hm & Hu & file & Hf & Hin).
      split_and!; try done. exists file. split; [done |].
      apply elem_of_app. by left.
    + intros Hclean. destruct (Hcl Hclean) as (file & Hf & Hin).
      exists file. split; [done |]. apply elem_of_app. by left.
    + intros job' [Hin | [= ->]%list_elem_of_singleton]%elem_of_app; auto.
    + apply Forall_app. split; [done |].
      apply Forall_cons. split; [exact Hre | apply Forall_nil_2].
  - destruct (handleDragStart_reencoded (app w) Hc) as [Hs Hcs].
    destruct (handleDragStart (app w)) as [s cs]. simpl in Hs, Hcs. subst s.
    split; simpl; try done. by apply Forall_app.
Qed.

Lemma consistent_settle (n : nat) (t : Task) (w : World) :
  consistent w →
  pending w !! n = Some t →
  consistent {| app := continue t (app w);
                pending := delete n (pending w);
                calls := (calls w ++ continueCalls t)%list |}.
Proof.
  intros [Hp Hc Hd Hr Hcl Hj Hcalls] Hn.
  assert (Hjobs : ∀ job, Adding job ∈ delete n (pending w) →
                         reencoded (job_request job)).
  { intros job Hin. apply Hj. by eapply list_elem_of_delete_inv. }
  destruct t as [file | file | job]; simpl.
  - split; simpl; try done. by rewrite app_nil_r.
  - unfold handleCleanMetadata_resume.
    destruct (cleanAttempt file) as [[u size] |] eqn:Hok; simpl.
    + split; simpl; rewrite ?app_nil_r; try done.
      all: try (intros u' [= <-]; exists size; split; [done |]; by exists file).
      all: try (intros _; by eexists).
    + split; simpl; try done. by rewrite app_nil_r.
  - assert (Hcalls' : Forall callReencoded (calls w ++ addCall job)).
    { apply Forall_app. split; [done |]. unfold addCall.
      destruct (upload _); by repeat constructor. }
    assert (Hread : processingState (app w) = reading →
              metadata (app w) = None ∧ cleanedImageUrl (app w) = None
              ∧ ∃ file, selectedFile (app w) = Some file
                        ∧ Parsing file ∈ delete n (pending w)).
    { intros Hread. destruct (Hr Hread) as (Hm & Hu & file & Hf & Hin).
      split_and!; try done. exists file. split; [done |].
      by eapply elem_of_delete_other. }
    assert (Hclean : processingState (app w) = cleaning →
              ∃ file, selectedFile (app w) = Some file
                      ∧ Cleaning file ∈ delete n (pending w)).
    { intros Hclean. destruct (Hcl Hclean) as (file & Hf & Hin).
      exists file. split; [done |]. by eapply elem_of_delete_other. }
    unfold handleClick_resume. destruct (addAttempt job); by split.
Qed.

Lemma consistent_step (e : Event) (w w' : World) :
  consistent w → step e w = Some w' → consistent w'.
Proof.
  intros Hw. destruct e as [u | n]; simpl.
  - destruct (offered _ _); [| done]. intros [= <-]. by apply consistent_invoke.
  - destruct (pending w !! n) as [t |] eqn:Hn; [| done].
    intros [= <-]. by apply consistent_settle.
Qed.

Lemma reachable_consistent (w : World) : reachable w → consistent w.
Proof.
  intros [es Hrun].
  exact (run_preserves consistent consistent_step es _ _ consistent_initial Hrun).
Qed.

End Sessions.

Section SessionProperties.
Context `{Platform}.

(** X15.  In every world a session can reach, the preview shown is the object
    URL of the file that is selected, and there is none when no file is. *)
Theorem preview_belongs_to_selected_file (w : World) :
  reachable w →
  imagePreview (app w) = createObjectURL <$> selectedFile (app w).
Proof. intros Hw. by destruct (reachable_consistent w Hw). Qed.

(** X16.  In every world a session can reach, a stored data URL is intact: it
    was read from the blob of one clean attempt, and the dimensions stored
    next to it are the natural size of the image decoded in that attempt. *)
Theorem stored_clean_result_intact (w : World) (u : string) :
  reachable w →
  cleanedImageUrl (app w) = Some u →
  ∃ size file img blob,
    cleanedImageSize (app w) = Some size
    ∧ cleanAttempt file = Normal (u, size)
    ∧ image_load file = Some img
    ∧ toBlob (drawnCanvas img) (targetMime file) quality = Some blob
    ∧ readAsDataURL blob = Dom.ReadString u
    ∧ size_width size = Dom.naturalWidth img
    ∧ size_height size = Dom.naturalHeight img.
Proof.
  intros Hw Hu. destruct (reachable_consistent w Hw) as [_ Hc _ _ _ _ _].
  destruct (Hc u Hu) as (size & Hsize & file & Hok).
  destruct (cleanAttempt_normal _ _ _ Hok) as (img & blob & Hi & _ & Hb & Hr & Hz).
  exists size, file, img, blob. subst size. by split_and!.
Qed.

(** X17.  Whatever a session hands to the host for upload, directly on a
    click or through the closure given to a drag, is a re-encoded image: the
    URL was read from a blob [toBlob] produced from a canvas, the dimensions
    are that image's natural size, the thumbnail is the same URL, and the
    declared type is PNG or JPEG. *)
Theorem only_reencoded_images_reach_host (w : World) (req : Host.UploadRequest) :
  reachable w →
  Host.Upload req ∈ calls w
  ∨ (∃ fn cfg, Host.Drag fn cfg ∈ calls w ∧ Host.resolveImageRef cfg = req) →
  (∃ file img blob,
      image_load file = Some img
      ∧ toBlob (drawnCanvas img) (targetMime file) quality = Some blob
      ∧ readAsDataURL blob = Dom.ReadString (Host.url req)
      ∧ Host.upload_width req = Dom.naturalWidth img
      ∧ Host.upload_height req = Dom.naturalHeight img)
  ∧ Host.thumbnailUrl req = Host.url req
  ∧ (Host.mimeType req = "image/png" ∨ Host.mimeType req = "image/jpeg").
Proof.
  intros Hw Hin. destruct (reachable_consistent w Hw) as [_ _ _ _ _ _ Hcalls].
  rewrite Forall_forall in Hcalls.
  assert (Hre : reencoded req).
  { destruct Hin as [Hin | (fn & cfg & Hin & <-)].
    - exact (Hcalls _ Hin).
    - exact (proj1 (Hcalls _ Hin)). }
  destruct Hre as ((file & Hok) & Hthumb & Hmime).
  split; [| done].
  destruct (cleanAttempt_normal _ _ _ Hok) as (img & blob & Hi & _ & Hb & Hr & Hz).
  exists file, img, blob. injection Hz as Hwidth Hheight. by split_and!.
Qed.

(** X18.  Whenever a session shows "Reading metadata...", no record and no
    cleaned image are stored and the parse of the selected file is in flight;
    when it settles, the record of that file is stored and the session is
    idle. *)
Theorem reading_has_parse_in_flight (w : World) :
  reachable w →
  processingState (app w) = reading →
  metadata (app w) = None
  ∧ cleanedImageUrl (app w) = None
  ∧ ∃ n file w',
      selectedFile (app w) = Some file
      ∧ pending w !! n = Some (Parsing file)
      ∧ step (Settle n) w = Some w'
      ∧ processingState (app w') = idle
      ∧ metadata (app w') = Some (extract file)
      ∧ selectedFile (app w') = Some file.
Proof.
  intros Hw Hread. destruct (reachable_consistent w Hw) as [_ _ _ Hr _ _ _].
  destruct (Hr Hread) as (Hm & Hu & file & Hf & Hin).
  split_and!; try done.
  apply list_elem_of_lookup in Hin as [n Hn].
  exists n, file,
    {| app := handleFileSelect_resume file (app w);
       pending := delete n (pending w);
       calls := (calls w ++ [])%list |}.
  split_and!; try done. simpl. by rewrite Hn.
Qed.

(** X19.  Whenever a session shows "Cleaning metadata...", the user can do
    nothing, and the clean of the selected file is in flight; when it settles
    the session leaves that state, with the same file selected. *)
Theorem cleaning_has_clean_in_flight (w : World) :
  reachable w →
  processingState (app w) = cleaning →
  (∀ u, step (User u) w = None)
  ∧ ∃ n file w',
      selectedFile (app w) = Some file
      ∧ pending w !! n = Some (Cleaning file)
      ∧ step (Settle n) w = Some w'
      ∧ processingState (app w') ≠ cleaning
      ∧ selectedFile (app w') = Some file.
Proof.
  intros Hw Hclean. destruct (reachable_consistent w Hw) as [_ _ _ _ Hcl _ _].
  destruct (Hcl Hclean) as (file & Hf & Hin).
  split.
  - intros u. simpl.
    by rewrite (nothing_offered_while_cleaning _ _ u Hf Hclean).
  - apply list_elem_of_lookup in Hin as [n Hn].
    exists n, file,
      {| app := handleCleanMetadata_resume file (app w);
         pending := delete n (pending w);
         calls := (calls w ++ [])%list |}.
    split_and!; try done.
    + simpl. by rewrite Hn.
    + simpl. unfold handleCleanMetadata_resume.
      by destruct (cleanAttempt file) as [[u size] |].
    + simpl. unfold handleCleanMetadata_resume.
      by destruct (cleanAttempt file) as [[u size] |].
Qed.

(** X20.  Whenever a session is in the "done" state, a data URL and
    dimensions are stored: the success message is never shown without a
    cleaned image behind it. *)
Theorem done_means_cleaned_image_stored (w : World) :
  reachable w →
  processingState (app w) = done →
  ∃ u size,
    cleanedImageUrl (app w) = Some u ∧ cleanedImageSize (app w) = Some size.
Proof.
  intros Hw Hdone. destruct (reachable_consistent w Hw) as [_ Hc Hd _ _ _ _].
  destruct (Hd Hdone) as [u Hu]. destruct (Hc u Hu) as (size & Hsize & _).
  by exists u, size.
Qed.

Lemma drop_offered (s : AppState) (file : Dom.File) :
  selectedFile s = None →
  Dom.type file ∈ ["image/jpeg"; "image/png"; "image/webp"; "image/tiff"] →
  offered (render s) (DropAcceptedFiles [file]) = true.
Proof.
  intros Hsel Htype. unfold offered, render. cbn [content]. rewrite Hsel.
  cbn [forallb]. by rewrite (bool_decide_eq_true_2 _ Htype).
Qed.

(** X21.  A record can outlive its file: select a file, reset while it is
    being read, select a second file; if the second parse settles before the
    first, the session ends idle with the second file selected and the
    record of the first one stored.  Nothing in [handleFileSelect] ties the
    record to the file it was read from. *)
Theorem late_parse_overwrites_record (first second : Dom.File) :
  Dom.type first ∈ ["image/jpeg"; "image/png"; "image/webp"; "image/tiff"] →
  Dom.type second ∈ ["image/jpeg"; "image/png"; "image/webp"; "image/tiff"] →
  ∃ w, run [ User (DropAcceptedFiles [first]); User ClickReset;
             User (DropAcceptedFiles [second]); Settle 1; Settle 0 ]
         initialWorld = Some w
       ∧ selectedFile (app w) = Some second
       ∧ metadata (app w) = Some (extract first)
       ∧ processingState (app w) = idle
       ∧ pending w = [].
Proof.
  intros Hfirst Hsecond. eexists. split.
  - cbn [run step]. rewrite (drop_offered _ first) by done.
    cbn [run step invoke handleFileSelect_begin head app pending calls].
    change (offered _ ClickReset) with true. cbv iota.
    cbn [run step invoke].
    rewrite (drop_offered _ second) by done.
    simpl. reflexivity.
  - done.
Qed.

End SessionProperties.

Section SessionWitness.
#[local] Existing Instance Demo.platform.

Lemma preview_belongs_to_selected_file_witness :
  ∃ w, run [User (DropAcceptedFiles [Demo.photo])] initialWorld = Some w
       ∧ imagePreview (app w) = Some "blob:photo.jpg".
Proof.
  eexists. split; [vm_compute; reflexivity |].
  rewrite (preview_belongs_to_selected_file (H := Demo.platform)); [reflexivity |].
  by exists [User (DropAcceptedFiles [Demo.photo])].
Defined.

Lemma stored_clean_result_intact_witness :
  ∃ w, run [User (DropAcceptedFiles [Demo.logo]); Settle 0;
            User ClickCleanMetadata; Settle 0] initialWorld = Some w
       ∧ cleanedImageUrl (app w) = Some "data:image/png;rows=2"
       ∧ is_Some (cleanedImageSize (app w)).
Proof.
  eexists. split; [vm_compute; reflexivity |]. split; [reflexivity |].
  edestruct (stored_clean_result_intact (H := Demo.platform))
    as (size & _ & _ & _ & Hsize & _);
    [| | exists size; exact Hsize].
  - by exists [User (DropAcceptedFiles [Demo.logo]); Settle 0;
               User ClickCleanMetadata; Settle 0].
  - reflexivity.
Defined.

Lemma only_reencoded_images_reach_host_witness :
  ∃ w req, run [User (DropAcceptedFiles [Demo.logo]); Settle 0;
                User ClickCleanMetadata; Settle 0; User ClickImageCard]
             initialWorld = Some w
           ∧ Host.Upload req ∈ calls w
           ∧ Host.thumbnailUrl req = Host.url req.
Proof.
  eexists. eexists. split; [vm_compute; reflexivity |].
  split; [apply list_elem_of_here |].
  eapply (only_reencoded_images_reach_host (H := Demo.platform)).
  - by exists [User (DropAcceptedFiles [Demo.logo]); Settle 0;
               User ClickCleanMetadata; Settle 0; User ClickImageCard].
  - left. apply list_elem_of_here.
Defined.

Lemma reading_has_parse_in_flight_witness :
  ∃ w, run [User (DropAcceptedFiles [Demo.photo])] initialWorld = Some w
       ∧ metadata (app w) = None.
Proof.
  eexists. split; [vm_compute; reflexivity |].
  eapply (reading_has_parse_in_flight (H := Demo.platform)).
  - by exists [User (DropAcceptedFiles [Demo.photo])].
  - reflexivity.
Defined.

Lemma cleaning_has_clean_in_flight_witness :
  ∃ w, run [User (DropAcceptedFiles [Demo.logo]); Settle 0;
            User ClickCleanMetadata] initialWorld = Some w
       ∧ step (User ClickReset) w = None.
Proof.
  eexists. split; [vm_compute; reflexivity |].
  eapply (cleaning_has_clean_in_flight (H := Demo.platform)).
  - by exists [User (DropAcceptedFiles [Demo.logo]); Settle 0;
               User ClickCleanMetadata].
  - reflexivity.
Defined.

Lemma done_means_cleaned_image_stored_witness :
  ∃ w, run [User (DropAcceptedFiles [Demo.logo]); Settle 0;
            User ClickCleanMetadata; Settle 0] initialWorld = Some w
       ∧ ∃ u size, cleanedImageUrl (app w) = Some u
                   ∧ cleanedImageSize (app w) = Some size.
Proof.
  eexists. split; [vm_compute; reflexivity |].
  eapply (done_means_cleaned_image_stored (H := Demo.platform)).
  - by exists [User (DropAcceptedFiles [Demo.logo]); Settle 0;
               User ClickCleanMetadata; Settle 0].
  - reflexivity.
Defined.

Lemma late_parse_overwrites_record_witness :
  ∃ w, run [ User (DropAcceptedFiles [Demo.photo]); User ClickReset;
             User (DropAcceptedFiles [Demo.logo]); Settle 1; Settle 0 ]
         initialWorld = Some w
       ∧ selectedFile (app w) = Some Demo.logo
       ∧ metadata (app w) = Some (parsedMetadata Demo.photoTags).
Proof.
  destruct (late_parse_overwrites_record (H := Demo.platform) Demo.photo Demo.logo)
    as (w & Hrun & Hsel & Hmeta & _).
  - apply list_elem_of_here.
  - apply list_elem_of_further, list_elem_of_here.
  - exists w. split; [exact Hrun |]. split; [exact Hsel |].
    rewrite Hmeta. reflexivity.
Defined.

End SessionWitness.
